(** * Fivape: the PrestaShop SEO rewriting pipeline

    A shallow embedding of [prestashop_seo_rewriter.py] (the class
    [PrestashopSEORewriter]) and of [parse_id_input] from
    [streamlit_app.py], with the properties of the pipeline proved over it.

    - Python strings are sequences of Unicode code points; they are lists
      of code points here, so that [len], slicing and the character classes
      of [re], [str.strip] and [int] mean what they mean in Python.
    - The values of the shop's JSON are an inductive type; dicts are
      association lists in insertion order.
    - A method is a function from [self] to a finite tree of events (the
      generation call, the HTTP requests, progress reports, pauses and
      prints), whose leaves hold the result or the exception raised and the
      new [self]. A run against a world is [interp]; a property of all
      runs is [always].
    - The Unicode tables of the runtime and BeautifulSoup are interfaces
      ([PyRuntime], [HtmlParser]); the theorems hold for all their
      instances, the examples are evaluated on ASCII instances.

    The definitions come first, the proofs after them. *)

From Stdlib Require Import ZArith NArith QArith Lia Bool.
From Stdlib Require Import Strings.String Strings.Ascii.
From Stdlib Require Import DecimalString Floats.SpecFloat.
From stdpp Require Import base list gmap.

Local Open Scope list_scope.
#[local] Set Warnings "-register-all".

(** ** Python strings *)

Module PyStr.

Definition char := N.
Definition str := list char.

(** Decoding of the UTF-8 bytes of a literal of this file into code
    points. *)
Fixpoint utf8_decode (bs : list N) : str :=
  match bs with
  | [] => []
  | b :: r =>
      if (b <? 128)%N then b :: utf8_decode r
      else if (b <? 224)%N then
        match r with
        | b1 :: r' => ((b - 192) * 64 + (b1 - 128))%N :: utf8_decode r'
        | _ => []
        end
      else if (b <? 240)%N then
        match r with
        | b1 :: b2 :: r' =>
            ((b - 224) * 4096 + (b1 - 128) * 64 + (b2 - 128))%N :: utf8_decode r'
        | _ => []
        end
      else
        match r with
        | b1 :: b2 :: b3 :: r' =>
            ((b - 240) * 262144 + (b1 - 128) * 4096 + (b2 - 128) * 64 + (b3 - 128))%N
              :: utf8_decode r'
        | _ => []
        end
  end.

Definition u (s : string) : str :=
  utf8_decode (List.map N_of_ascii (list_ascii_of_string s)).
Arguments u s%_string.

Definition chr_quote : char := 34%N.
Definition chr_newline : char := 10%N.
Definition chr_space : char := 32%N.

Definition char_eqb (a b : char) : bool := (a =? b)%N.

Fixpoint str_eqb (a b : str) : bool :=
  match a, b with
  | [], [] => true
  | x :: a', y :: b' => char_eqb x y && str_eqb a' b'
  | _, _ => false
  end.

(** [len(s)], of a string or of a list *)
Definition len {A} (s : list A) : Z := Z.of_nat (length s).

(** [str.isspace]: the code points Python treats as whitespace, in
    [str.strip], [str.split] without separator, [int] and the [\s] class
    of [re] on [str] patterns. *)
Definition is_space (c : char) : bool :=
  ((9 <=? c) && (c <=? 13) || (28 <=? c) && (c <=? 32)
   || (c =? 133) || (c =? 160) || (c =? 5760)
   || (8192 <=? c) && (c <=? 8202)
   || (c =? 8232) || (c =? 8233) || (c =? 8239) || (c =? 8287)
   || (c =? 12288))%N.

(** The whitespace [int] skips around a number: the ASCII blanks and the
    whitespace beyond ASCII, but not the separators U+001C to U+001F. *)
Definition is_int_space (c : char) : bool :=
  is_space c && negb ((28 <=? c) && (c <=? 31))%N.

(** Trimming of the characters of a class, on the left, on the right and on
    both sides. *)
Fixpoint lstrip_by (p : char -> bool) (s : str) : str :=
  match s with
  | c :: s' => if p c then lstrip_by p s' else s
  | [] => []
  end.

Definition rstrip_by (p : char -> bool) (s : str) : str := rev (lstrip_by p (rev s)).

Definition strip_by (p : char -> bool) (s : str) : str := rstrip_by p (lstrip_by p s).

(** [s.strip()] *)
Definition strip (s : str) : str := strip_by is_space s.

(** [s.rstrip(c)] for a one-character argument *)
Definition rstrip_char (c : char) (s : str) : str := rstrip_by (fun x => char_eqb x c) s.

(** [s.startswith(p)] *)
Fixpoint startswith (p s : str) : bool :=
  match p, s with
  | [], _ => true
  | x :: p', y :: s' => char_eqb x y && startswith p' s'
  | _ :: _, [] => false
  end.

(** [s.endswith(p)] *)
Definition endswith (p s : str) : bool := startswith (rev p) (rev s).

(** [sub in s] *)
Fixpoint contains (sub s : str) : bool :=
  startswith sub s ||
  match s with
  | [] => false
  | _ :: s' => contains sub s'
  end.

(** [sep.join(parts)] *)
Fixpoint join (sep : str) (parts : list str) : str :=
  match parts with
  | [] => []
  | [p] => p
  | p :: rest => p ++ sep ++ join sep rest
  end.

(** [s.split(sep)] for a non-empty separator: cut at each leftmost
    occurrence, scanning from the left. [skip] counts the characters of a
    separator just found that are still to be passed over. *)
Fixpoint split_from (sep : str) (skip : nat) (s : str) : list str :=
  match s with
  | [] => [[]]
  | c :: s' =>
      match skip with
      | S k => split_from sep k s'
      | O =>
          if startswith sep s then [] :: split_from sep (length sep - 1) s'
          else
            match split_from sep O s' with
            | h :: t => (c :: h) :: t
            | [] => [[c]]
            end
      end
  end.

Definition split (sep s : str) : list str := split_from sep 0 s.

(** [s.split()]: the maximal runs of non-whitespace characters *)
Fixpoint split_ws_from (cur : str) (s : str) : list str :=
  match s with
  | [] => match cur with [] => [] | _ => [rev cur] end
  | c :: s' =>
      if is_space c then
        match cur with
        | [] => split_ws_from [] s'
        | _ => rev cur :: split_ws_from [] s'
        end
      else split_ws_from (c :: cur) s'
  end.

Definition split_ws (s : str) : list str := split_ws_from [] s.

(** [s.replace(old, new)] for a non-empty [old] *)
Fixpoint replace_from (old new : str) (skip : nat) (s : str) : str :=
  match s with
  | [] => []
  | c :: s' =>
      match skip with
      | S k => replace_from old new k s'
      | O =>
          if startswith old s then new ++ replace_from old new (length old - 1) s'
          else c :: replace_from old new O s'
      end
  end.

Definition replace (old new s : str) : str := replace_from old new 0 s.

(** [s[:n]] and [s[n:]] for a non-negative [n] *)
Definition slice_to {A} (n : nat) (l : list A) : list A := firstn n l.
Definition slice_from {A} (n : nat) (l : list A) : list A := skipn n l.

(** [str(z)] for an integer *)
Definition of_Z (z : Z) : str :=
  List.map N_of_ascii (list_ascii_of_string (NilEmpty.string_of_int (Z.to_int z))).

End PyStr.
Import PyStr.

(** ** Python values

    What [response.json()] yields and what the catalogue fields hold:
    [None], booleans, integers, floats, strings, lists and dicts. A dict
    keeps its insertion order, which [for k, v in d.items()] follows, so it
    is an association list; lookup takes the first binding of a key. *)


Inductive value : Type :=
| VNone
| VBool (b : bool)
| VInt (z : Z)
| VFloat (f : spec_float)
| VStr (s : str)
| VList (l : list value)
| VDict (d : list (str * value)).

Definition dict (V : Type) : Type := list (str * V).

Fixpoint dict_get {V} (k : str) (d : dict V) : option V :=
  match d with
  | [] => None
  | (k', v) :: d' => if str_eqb k' k then Some v else dict_get k d'
  end.

(** [k in d] *)
Definition dict_mem {V} (k : str) (d : dict V) : bool :=
  match dict_get k d with Some _ => true | None => false end.

(** [bool(v)] *)
Definition truthy (v : value) : bool :=
  match v with
  | VNone => false
  | VBool b => b
  | VInt z => negb (z =? 0)%Z
  | VFloat (S754_zero _) => false
  | VFloat _ => true
  | VStr s => match s with [] => false | _ => true end
  | VList l => match l with [] => false | _ => true end
  | VDict d => match d with [] => false | _ => true end
  end.

Inductive exn : Type :=
| AttributeError
| TypeError
| ValueError
| KeyError
| ExternalError (msg : str).

(** The parts of the Python runtime that are Unicode tables or library
    internals, none of them in the repository. *)
Class PyRuntime : Type := {
  (** [s.lower()] *)
  lower : str -> str;
  (** the value of a Unicode decimal digit: the class [\d] of [re] and the
      digits [int] accepts *)
  decimal_value : char -> option Z;
  (** whether two characters match under [re.IGNORECASE] *)
  char_ieq : char -> char -> bool;
  (** [str(v)] of a float, a list or a dict *)
  repr_compound : value -> str
}.

Section Runtime.
Context {RT : PyRuntime}.

(** [str(v)], also what an f-string interpolates *)
Definition py_str (v : value) : str :=
  match v with
  | VStr s => s
  | VNone => u "None"
  | VBool true => u "True"
  | VBool false => u "False"
  | VInt z => of_Z z
  | _ => repr_compound v
  end.

(** [v.get(key, default)]: only a dict has [get] *)
Definition py_get (v : value) (key : str) (default : value) : exn + value :=
  match v with
  | VDict d => inr (match dict_get key d with Some x => x | None => default end)
  | _ => inl AttributeError
  end.

(** [v.strip()]: only a string has [strip] *)
Definition py_strip (v : value) : exn + str :=
  match v with
  | VStr s => inr (strip s)
  | _ => inl AttributeError
  end.

(** [int(s)] on a string: surrounding whitespace (of [is_int_space]), an
    optional sign, then decimal digits, single underscores allowed between
    digits. *)
Fixpoint int_digits (acc : Z) (after_digit : bool) (s : str) : option Z :=
  match s with
  | [] => if after_digit then Some acc else None
  | c :: s' =>
      match decimal_value c with
      | Some d => int_digits (10 * acc + d) true s'
      | None =>
          if ((c =? 95)%N && after_digit)%bool then
            match s' with
            | [] => None
            | c' :: _ =>
                match decimal_value c' with
                | Some _ => int_digits acc false s'
                | None => None
                end
            end
          else None
      end
  end.

Definition py_int (s : str) : option Z :=
  match strip_by is_int_space s with
  | 43%N :: ds => int_digits 0 false ds
  | 45%N :: ds => option_map Z.opp (int_digits 0 false ds)
  | ds => int_digits 0 false ds
  end.

End Runtime.

(** ** Regular expressions

    The patterns of the program are sequences of single-character tests,
    each taken once, zero or more times, or one or more times. [re_match]
    is the backtracking matcher of [re.match]: a repetition first takes
    as many characters as it can and gives them back one by one while the
    rest of the pattern fails. It returns the length of the match. *)

Module Re.

Inductive item : Type :=
| One (p : char -> bool)
| Star (p : char -> bool)
| Plus (p : char -> bool).

Fixpoint greedy (p : char -> bool) (k : str -> option nat) (s : str) : option nat :=
  match s with
  | c :: s' =>
      if p c then
        match greedy p k s' with
        | Some n => Some (S n)
        | None => k s
        end
      else k s
  | [] => k s
  end.

Fixpoint re_match (pat : list item) (s : str) {struct pat} : option nat :=
  match pat with
  | [] => Some O
  | One p :: r =>
      match s with
      | c :: s' => if p c then option_map S (re_match r s') else None
      | [] => None
      end
  | Star p :: r => greedy p (re_match r) s
  | Plus p :: r =>
      match s with
      | c :: s' => if p c then option_map S (greedy p (re_match r) s') else None
      | [] => None
      end
  end.

(** [re.match(pat, s).group(0)] *)
Definition match_prefix (pat : list item) (s : str) : option str :=
  option_map (fun n => slice_to n s) (re_match pat s).

(** [bool(re.search(pat, s))] *)
Fixpoint search (pat : list item) (s : str) : bool :=
  match re_match pat s with
  | Some _ => true
  | None => match s with [] => false | _ :: s' => search pat s' end
  end.

(** [re.sub(pat, '', s)] for a pattern that matches no empty string *)
Fixpoint remove_from (pat : list item) (skip : nat) (s : str) : str :=
  match s with
  | [] => []
  | c :: s' =>
      match skip with
      | S k => remove_from pat k s'
      | O =>
          match re_match pat s with
          | Some (S n) => remove_from pat n s'
          | _ => c :: remove_from pat O s'
          end
      end
  end.

Definition remove_all (pat : list item) (s : str) : str := remove_from pat 0 s.

(** [len(re.findall(pat, s))] for a pattern that matches no empty string *)
Fixpoint count_from (pat : list item) (skip : nat) (s : str) : Z :=
  match s with
  | [] => 0
  | c :: s' =>
      match skip with
      | S k => count_from pat k s'
      | O =>
          match re_match pat s with
          | Some (S n) => 1 + count_from pat n s'
          | _ => count_from pat O s'
          end
      end
  end.

Definition count_all (pat : list item) (s : str) : Z := count_from pat 0 s.

Definition lit (c : char) : item := One (char_eqb c).
Definition literal (s : str) : list item := List.map lit s.
Definition literal_i {RT : PyRuntime} (s : str) : list item :=
  List.map (fun c => One (char_ieq c)) s.

End Re.

(** The pattern [<[^>]+>] of [re.sub] and [re.search]. *)
Definition tag_pattern : list Re.item :=
  [Re.lit 60%N; Re.Plus (fun c => negb (char_eqb c 62%N)); Re.lit 62%N].

(** The pattern of the meta description's price label: [Prix], [:], one
    or more of [\d] and the comma, the euro sign and [|], with optional
    whitespace after each, the last included. *)
Definition price_pattern {RT : PyRuntime} : list Re.item :=
  Re.literal (u "Prix") ++
  [Re.Star is_space; Re.lit 58%N; Re.Star is_space;
   Re.Plus (fun c => match decimal_value c with Some _ => true | None => char_eqb c 44%N end);
   Re.Star is_space; Re.lit 8364%N; Re.Star is_space; Re.lit 124%N; Re.Star is_space].

(** A runtime restricted to ASCII letters and digits, to evaluate the
    program on concrete texts. *)
Definition ascii_lower_char (c : char) : char :=
  if ((65 <=? c) && (c <=? 90))%N then (c + 32)%N else c.

#[local] Instance ascii_runtime : PyRuntime := {|
  lower := List.map ascii_lower_char;
  decimal_value := fun c =>
    if ((48 <=? c) && (c <=? 57))%N then Some (Z.of_N (c - 48)) else None;
  char_ieq := fun a b => char_eqb (ascii_lower_char a) (ascii_lower_char b);
  repr_compound := fun _ => u "<object>"
|}.

(** ** Effects

    The program talks to the generation API and to the shop's REST API,
    reports progress, sleeps and prints. A run is a tree of such events,
    each answered by the outside world; the tree is finite because every
    loop of the program runs over a finite list. *)

Record ChatRequest : Type := {
  model : str;
  messages : list (str * str);
  temperature : Q;
  max_tokens : Z
}.

Record Response : Type := {
  status_code : Z;
  json : exn + value
}.

Inductive event : Type -> Type :=
(** [openai.chat.completions.create(...)] followed by
    [response.choices[0].message.content]: the content, or the exception
    raised on the way *)
| ChatCompletion (req : ChatRequest) : event (exn + value)
(** [requests.get(url, auth=HTTPBasicAuth(key, ''), params=..., verify=True)] *)
| HttpGet (url : str) (auth : str * str) (params : dict str) : event (exn + Response)
(** [progress_callback(current, total, message)] *)
| ProgressCallback (current total : Z) (message : str) : event unit
(** [time.sleep(seconds)] *)
| Sleep (seconds : Q) : event unit
(** [print(f"{message}{e}")] *)
| Print (message : str) (e : exn) : event unit.

Inductive Prog (A : Type) : Type :=
| Ret (a : A)
| Vis {X : Type} (e : event X) (k : X -> Prog A).
Arguments Ret {A} a.
Arguments Vis {A X} e k.

Fixpoint prog_bind {A B} (p : Prog A) (f : A -> Prog B) : Prog B :=
  match p with
  | Ret a => f a
  | Vis e k => Vis e (fun x => prog_bind (k x) f)
  end.

(** The outside world: a state and an answer to every event. *)
Definition handler (W : Type) : Type := forall X, event X -> W -> X * W.

Fixpoint interp {W A} (h : handler W) (p : Prog A) (w : W) : A * W :=
  match p with
  | Ret a => (a, w)
  | Vis e k => let '(x, w') := h _ e w in interp h (k x) w'
  end.

(** [always p Q]: whatever the world answers, [p] ends in a value
    satisfying [Q]. *)
Fixpoint always {A} (p : Prog A) (Q : A -> Prop) : Prop :=
  match p with
  | Ret a => Q a
  | Vis e k => forall x, always (k x) Q
  end.

(** ** The data model *)

Record Stats : Type := {
  original_length : Z;
  new_length : Z;
  original_word_count : Z;
  new_word_count : Z;
  html_preserved : bool;
  keywords_integrated : dict Z;
  price_preserved : bool;
  brand_preserved : option bool
}.

(** The stats dict of a rewrite is either [{}] ([None] here) or has all
    the keys of [Stats]. *)
Record RewriteData : Type := {
  field : str;
  field_name : str;
  original_content : str;
  rewritten_content : str;
  original_text_only : str;
  rewritten_text_only : str;
  stats : option Stats;
  keywords : dict Z
}.

Record SeoStats : Type := {
  fields_rewritten : Z;
  total_keywords_added : Z;
  html_structure_improved : Z
}.

Record ItemResult : Type := {
  id : value;
  name : str;
  type : str;
  has_been_rewritten : bool;
  rewrites : list RewriteData;
  seo_stats : SeoStats
}.

Record Metadata : Type := {
  date : str;
  url : str;
  total_products_analyzed : Z;
  total_categories_analyzed : Z;
  total_manufacturers_analyzed : Z;
  items_rewritten : Z;
  seo_improvements : Z
}.

Record Results : Type := {
  metadata : Metadata;
  products : list ItemResult;
  categories : list ItemResult;
  manufacturers : list ItemResult;
  errors : list str
}.

(** The object [self]. *)
Record Rewriter : Type := {
  prestashop_url : str;
  prestashop_key : str;
  results : Results
}.

(** [PrestashopSEORewriter.__init__]; [now] is [datetime.now().isoformat()]. *)
Definition init (prestashop_url prestashop_key now : str) : Rewriter := {|
  prestashop_url := rstrip_char 47%N prestashop_url;
  prestashop_key := prestashop_key;
  results := {|
    metadata := {|
      date := now;
      url := prestashop_url;
      total_products_analyzed := 0;
      total_categories_analyzed := 0;
      total_manufacturers_analyzed := 0;
      items_rewritten := 0;
      seo_improvements := 0
    |};
    products := [];
    categories := [];
    manufacturers := [];
    errors := []
  |}
|}.

(** ** The monad of the methods

    A method reads and updates [self], may raise, and performs events. An
    exception leaves [self] as it was when it was raised. *)

Definition M (A : Type) : Type := Rewriter -> Prog ((exn + A) * Rewriter).

Module MonadM.

Definition ret {A} (a : A) : M A := fun self => Ret (inr a, self).

Definition raise {A} (e : exn) : M A := fun self => Ret (inl e, self).

Definition bind {A B} (m : M A) (f : A -> M B) : M B :=
  fun self =>
    prog_bind (m self) (fun rs =>
      match rs with
      | (inl e, self') => Ret (inl e, self')
      | (inr a, self') => f a self'
      end).

(** [try: m except Exception as e: h e] *)
Definition try_except {A} (m : M A) (h : exn -> M A) : M A :=
  fun self =>
    prog_bind (m self) (fun rs =>
      match rs with
      | (inl e, self') => h e self'
      | (inr a, self') => Ret (inr a, self')
      end).

Definition trigger {X} (e : event X) : M X :=
  fun self => Vis e (fun x => Ret (inr x, self)).

Definition of_result {A} (r : exn + A) : M A :=
  match r with
  | inl e => raise e
  | inr a => ret a
  end.

Definition get_self : M Rewriter := fun self => Ret (inr self, self).

Definition modify_results (f : Results -> Results) : M unit :=
  fun self =>
    Ret (inr tt, {| prestashop_url := prestashop_url self;
                    prestashop_key := prestashop_key self;
                    results := f (results self) |}).

(** [for x in l: s = body s x], with the variables the body assigns in [s] *)
Fixpoint for_fold {A S} (l : list A) (s : S) (body : S -> A -> M S) : M S :=
  match l with
  | [] => ret s
  | x :: l' => bind (body s x) (fun s' => for_fold l' s' body)
  end.

Definition for_each {A} (l : list A) (body : A -> M unit) : M unit :=
  for_fold l tt (fun _ x => body x).

Definition when (b : bool) (m : M unit) : M unit := if b then m else ret tt.

End MonadM.
Import MonadM.

Declare Scope prog_scope.
Delimit Scope prog_scope with prog.
Notation "x <- c1 ;; c2" := (bind c1 (fun x => c2))
  (at level 100, c1 at next level, right associativity) : prog_scope.
Notation "c1 ;; c2" := (bind c1 (fun _ => c2))
  (at level 100, right associativity) : prog_scope.

(** Exceptions alone, for the code that performs no event. *)
Definition ebind {A B} (r : exn + A) (f : A -> exn + B) : exn + B :=
  match r with
  | inl e => inl e
  | inr a => f a
  end.

Fixpoint emap {A B} (f : A -> exn + B) (l : list A) : exn + list B :=
  match l with
  | [] => inr []
  | x :: l' => ebind (f x) (fun y => ebind (emap f l') (fun ys => inr (y :: ys)))
  end.

Declare Scope exc_scope.
Delimit Scope exc_scope with exc.
Notation "x <- c1 ;; c2" := (ebind c1 (fun x => c2))
  (at level 100, c1 at next level, right associativity) : exc_scope.

(** ** The HTML content splitter *)

(** The interface of BeautifulSoup that the splitter uses; any of its
    operations may raise. *)
Class HtmlParser : Type := {
  soup : Type;
  tag : Type;
  (** [BeautifulSoup(html, 'html.parser')] *)
  BeautifulSoup : str -> exn + soup;
  (** [soup.find_all(names)] *)
  find_all : soup -> list str -> exn + list tag;
  (** [tag.get(attr, default)] *)
  tag_get : tag -> str -> value -> exn + value;
  (** [tag.get_text()] *)
  tag_get_text : tag -> exn + str;
  (** [soup.get_text(separator=sep, strip=True)] *)
  soup_get_text : soup -> str -> exn + str
}.

Section Pipeline.
Context {RT : PyRuntime} {BS : HtmlParser}.

(** The body of the [try] block: the text and the structure, or the
    exception raised on the way. *)
Definition parse_structure (html_content : str) : exn + (str * dict value) :=
  (sp <- BeautifulSoup html_content ;;
   imgs <- find_all sp [u "img"] ;;
   images <- emap (fun img =>
               src <- tag_get img (u "src") (VStr []) ;;
               alt <- tag_get img (u "alt") (VStr []) ;;
               title <- tag_get img (u "title") (VStr []) ;;
               inr (VDict [(u "src", src); (u "alt", alt); (u "title", title)])) imgs ;;
   anchors <- find_all sp [u "a"] ;;
   links <- emap (fun link =>
               href <- tag_get link (u "href") (VStr []) ;;
               text <- tag_get_text link ;;
               title <- tag_get link (u "title") (VStr []) ;;
               inr (VDict [(u "href", href); (u "text", VStr text); (u "title", title)])) anchors ;;
   lists <- find_all sp [u "ul"; u "ol"] ;;
   headings <- find_all sp [u "h1"; u "h2"; u "h3"; u "h4"; u "h5"; u "h6"] ;;
   let structure : dict value :=
     [(u "images", VList images);
      (u "links", VList links);
      (u "has_lists", VBool (match lists with [] => false | _ => true end));
      (u "has_headings", VBool (match headings with [] => false | _ => true end));
      (u "original_html", VStr html_content)] in
   text <- soup_get_text sp (u " ") ;;
   inr (text, structure))%exc.

Definition extract_and_preserve_html (html_content : str) : str * dict value :=
  if negb (truthy (VStr html_content)) then ([], [])
  else
    match parse_structure html_content with
    | inr r => r
    | inl _ => (html_content, [(u "original_html", VStr html_content)])
    end.

(** ** The keyword accountant *)

Definition count_keywords (text : str) : dict Z :=
  [(u "e-liquide", Re.count_all (Re.literal_i (u "e-liquide")) text);
   (u "vapotage", Re.count_all (Re.literal_i (u "vapotage")) text);
   (u "cigarette électronique", Re.count_all (Re.literal_i (u "cigarette électronique")) text);
   (u "vape", Re.count_all (Re.literal_i (u "vape")) text);
   (u "nicotine", Re.count_all (Re.literal_i (u "nicotine")) text)].

(** ** The rewrite step: prompt, generation call, normalisation, stats *)

Definition brand : str := u "Le Vapoteur Discount".

(** [has_vapoteur_discount] *)
Definition has_vapoteur_discount (content : str) : bool :=
  contains brand content || contains (u "le vapoteur discount") (lower content).

(** The price label taken off a meta description: the prefix and what is
    left to rewrite. Any other field, or a meta description without the
    label, keeps its content and has the empty prefix. *)
Definition split_price (field_type content : str) : str * str :=
  if str_eqb field_type (u "Meta description") then
    match Re.match_prefix price_pattern content with
    | Some price_prefix => (price_prefix, strip (slice_from (length price_prefix) content))
    | None => ([], content)
    end
  else ([], content).

Definition length_targets (price_prefix : str) : dict str :=
  [(u "Description courte", u "50-100 mots");
   (u "Description", u "200-400 mots");
   (u "Meta description",
     if negb (truthy (VStr price_prefix)) then u "140-150 caractères"
     else u "100-120 caractères");
   (u "Meta titre", u "50-60 caractères")].

Definition target_length (field_type price_prefix : str) : str :=
  match dict_get field_type (length_targets price_prefix) with
  | Some t => t
  | None => u "100-200 mots"
  end.

Definition brand_instruction (has_brand : bool) : str :=
  if has_brand then
    [chr_newline] ++ u "IMPORTANT : Si le texte contient " ++ [chr_quote] ++ brand ++ [chr_quote]
    ++ u " - CONSERVE EXACTEMENT cette mention avec cette orthographe."
  else [].

Definition price_instruction (price_prefix : str) : str :=
  if truthy (VStr price_prefix) then
    [chr_newline] ++ u "TRÈS IMPORTANT : Le texte commence par " ++ [chr_quote] ++ price_prefix
    ++ [chr_quote] ++ u " - NE PAS l'inclure dans ta réécriture, je l'ajouterai moi-même."
  else [].

(** The f-string [prompt]; [content] is the text to rewrite, the price
    label already taken off. *)
Definition build_prompt (content field_type item_name item_type price_prefix : str)
    (has_brand : bool) : str :=
  let target := target_length field_type price_prefix in
  join [chr_newline]
    [u "Tu es un expert SEO ET un spécialiste de la conformité réglementaire pour les produits de vapotage.";
     u "";
     u "CONTEXTE LÉGAL FIVAPE (Avril 2024) :";
     u "- Directive européenne 2014/40/UE et Code de la Santé Publique";
     u "- Interdiction TOTALE des termes promotionnels et subjectifs";
     u "- Uniquement des informations factuelles et techniques";
     u "";
     u "PRODUIT : " ++ item_name;
     u "TYPE : " ++ item_type;
     u "CHAMP : " ++ field_type;
     u "LONGUEUR CIBLE : " ++ target;
     u "";
     u "CONTENU À RÉÉCRIRE (sans le prix si présent) :";
     content;
     u "";
     brand_instruction has_brand;
     price_instruction price_prefix;
     u "";
     u "MISSION : Réécrire ce contenu en respectant STRICTEMENT :";
     u "";
     u "1. SUPPRIMER tous les termes de ce type : délicieux, savoureux, gourmand, excellent, parfait, bonheur, plaisir, intense, etc.";
     u "2. GARDER uniquement les informations factuelles";
     u "3. Si c'est une Meta Description, rester TRÈS concis (" ++ target ++ u ")";
     u "4. Si c'est un Meta titre, être court et percutant (" ++ target ++ u ")";
     u "5. Préserver les informations techniques : compatibilité, résistances, formats";
     u "";
     u "Fournis UNIQUEMENT le texte réécrit, sans le prix, sans commentaires."].

Definition chat_request (prompt : str) : ChatRequest := {|
  model := u "gpt-4o-mini";
  messages :=
    [(u "system", u "Expert SEO vapotage. Rédaction factuelle conforme FIVAPE.");
     (u "user", prompt)];
  temperature := 3 # 10;
  max_tokens := 500
|}.

Definition fence : str := u "```".

(** The loop over the lines of a fenced answer: a line with a fence flips
    [in_code_block] and is dropped, any other line is kept outside a
    block. *)
Fixpoint clean_lines (in_code_block : bool) (lines : list str) : list str :=
  match lines with
  | [] => []
  | line :: rest =>
      if contains fence line then clean_lines (negb in_code_block) rest
      else if negb in_code_block then line :: clean_lines in_code_block rest
      else clean_lines in_code_block rest
  end.

Definition strip_code_fences (rewritten : str) : str :=
  if contains fence rewritten then
    strip (join [chr_newline] (clean_lines false (split [chr_newline] rewritten)))
  else rewritten.

Definition terminate (sentence : str) : str :=
  sentence ++ (if negb (endswith (u ".") sentence) then u "." else []).

(** The loop [for i, sentence in enumerate(paragraphs)], from index [i]
    with [current_p] the sentences of the block being filled; [n] is
    [len(paragraphs)]. *)
Fixpoint html_paragraphs (n i : nat) (current_p : list str) (paragraphs : list str)
    : list str :=
  match paragraphs with
  | [] => []
  | sentence :: rest =>
      let current_p := current_p ++ [terminate sentence] in
      if (((i + 1) mod 3 =? 0) || (i =? n - 1))%nat then
        (u "<p>" ++ join (u " ") current_p ++ u "</p>") :: html_paragraphs n (S i) [] rest
      else html_paragraphs n (S i) current_p rest
  end.

Definition is_long_form (field_type : str) : bool :=
  str_eqb field_type (u "Description courte") || str_eqb field_type (u "Description").

Definition wrap_paragraphs (field_type rewritten : str) : str :=
  if is_long_form field_type && negb (contains (u "<") rewritten) then
    let paragraphs := split (u ". ") rewritten in
    if (3 <? length paragraphs)%nat then
      join [chr_newline] (html_paragraphs (length paragraphs) 0 [] paragraphs)
    else u "<p>" ++ rewritten ++ u "</p>"
  else rewritten.

Definition reattach_price (price_prefix rewritten : str) : str :=
  if truthy (VStr price_prefix) then price_prefix ++ rewritten else rewritten.

(** The response normaliser: what becomes of the stripped answer. *)
Definition normalize (field_type price_prefix answer : str) : str :=
  wrap_paragraphs field_type (reattach_price price_prefix (strip_code_fences answer)).

(** [content + price_prefix if price_prefix else content] *)
Definition original_for_stats (content price_prefix : str) : str :=
  if truthy (VStr price_prefix) then content ++ price_prefix else content.

Definition make_stats (content price_prefix rewritten : str) (has_brand : bool) : Stats := {|
  original_length := len (original_for_stats content price_prefix);
  new_length := len rewritten;
  original_word_count := len (split_ws (original_for_stats content price_prefix));
  new_word_count := len (split_ws rewritten);
  html_preserved := Re.search tag_pattern rewritten;
  keywords_integrated := count_keywords rewritten;
  price_preserved := truthy (VStr price_prefix);
  brand_preserved := if has_brand then Some (contains brand rewritten) else None
|}.

Definition rewrite_content_with_seo (content field_type item_name item_type : str)
    (html_structure : dict value) : M (str * option Stats) :=
  if negb (truthy (VStr content)) || (len (strip content) <? 10)%Z then ret (content, None)
  else
    let has_brand := has_vapoteur_discount content in
    let '(price_prefix, content) := split_price field_type content in
    try_except
      (let prompt := build_prompt content field_type item_name item_type price_prefix has_brand in
       response <- trigger (ChatCompletion (chat_request prompt)) ;;
       message <- of_result response ;;
       answer <- of_result (py_strip message) ;;
       let rewritten_content := normalize field_type price_prefix answer in
       ret (rewritten_content, Some (make_stats content price_prefix rewritten_content has_brand)))%prog
      (fun e =>
         (trigger (Print (u "[ERREUR] Réécriture: ") e) ;;
          ret (if truthy (VStr price_prefix) then price_prefix ++ content else content, None))%prog).

End Pipeline.

(** ** The item processor *)

Section Items.
Context {RT : PyRuntime} {BS : HtmlParser}.

Definition extract_content (field_data : value) : exn + value :=
  match field_data with
  | VDict d =>
      if dict_mem (u "language") d then
        match (match dict_get (u "language") d with Some l => l | None => VList [] end) with
        | VList [] => inr (VStr [])
        | VList (first :: _) => py_get first (u "value") (VStr [])
        | VDict languages => py_get (VDict languages) (u "value") (VStr [])
        | _ => inr (VStr [])
        end
      else py_get field_data (u "value") (VStr (py_str field_data))
  | VList [] => inr (VStr [])
  | VList (first :: _) => inr first
  | _ => inr (if truthy field_data then VStr (py_str field_data) else VStr [])
  end.

(** [re.sub(r'<[^>]+>', '', v)]: a [TypeError] unless [v] is a string *)
Definition strip_tags (v : value) : exn + str :=
  match v with
  | VStr s => inr (Re.remove_all tag_pattern s)
  | _ => inl TypeError
  end.

Definition fields_to_skip (item_type : str) : list str :=
  if str_eqb item_type (u "product") then [u "name"] else [].

(** [x in l] for a list of strings *)
Definition str_in (x : str) (l : list str) : bool := existsb (str_eqb x) l.

(** [sum(d.values())] *)
Definition sum_values (d : dict Z) : Z := fold_right (fun kv acc => snd kv + acc)%Z 0%Z d.

(** The updates of [result] when a field was rewritten. *)
Definition record_rewrite (result : ItemResult) (field field_name original_content
    rewritten_content : str) (stats : option Stats) : ItemResult :=
  let keywords_integrated :=
    match stats with Some s => keywords_integrated s | None => [] end in
  let total_keywords_added :=
    if match keywords_integrated with [] => false | _ => true end
    then (total_keywords_added (seo_stats result) + sum_values keywords_integrated)%Z
    else total_keywords_added (seo_stats result) in
  let rewrite_data := {|
    field := field;
    field_name := field_name;
    original_content := original_content;
    rewritten_content := rewritten_content;
    original_text_only := Re.remove_all tag_pattern original_content;
    rewritten_text_only := Re.remove_all tag_pattern rewritten_content;
    stats := stats;
    keywords := keywords_integrated
  |} in
  {| id := id result;
     name := name result;
     type := type result;
     has_been_rewritten := true;
     rewrites := rewrites result ++ [rewrite_data];
     seo_stats := {|
       fields_rewritten := fields_rewritten (seo_stats result) + 1;
       total_keywords_added := total_keywords_added;
       html_structure_improved := html_structure_improved (seo_stats result)
     |} |}.

(** [item.get('id')] *)
Definition item_id_of (d : dict value) : value :=
  match dict_get (u "id") d with Some v => v | None => VNone end.

(** The name of the item for the prompts: the [name] field without its
    tags, cut at 100 characters, or the type and the identifier when that
    is empty. *)
Definition item_name_of (d : dict value) (item_type : str) : exn + str :=
  (name_content <-
     extract_content (match dict_get (u "name") d with Some v => v | None => VStr [] end) ;;
   name_text <- strip_tags name_content ;;
   inr (if truthy (VStr name_text) then slice_to 100 name_text
        else item_type ++ u " " ++ py_str (item_id_of d)))%exc.

Section Processor.
(** [self.rewrite_content_with_seo], reached through [self]. *)
Variable rewrite_step : str -> str -> str -> str -> dict value -> M (str * option Stats).

(** The body of the loop over [fields_to_process.items()]. *)
Definition process_field (item : dict value) (item_type item_name : str)
    (result : ItemResult) (entry : str * str) : M ItemResult :=
  let '(field, field_name) := entry in
  if str_in field (fields_to_skip item_type) then ret result
  else
    match dict_get field item with
    | None => ret result
    | Some field_data =>
        (original_content <- of_result (extract_content field_data) ;;
         long_enough <-
           (if truthy original_content then
              stripped <- of_result (py_strip original_content) ;;
              ret (5 <? len stripped)%Z
            else ret false) ;;
         if (long_enough : bool) then
           match original_content with
           | VStr original_content =>
               let '(text_content, html_structure) :=
                 extract_and_preserve_html original_content in
               rewritten <- rewrite_step original_content field_name item_name item_type
                              html_structure ;;
               let '(rewritten_content, stats) := rewritten in
               if negb (str_eqb rewritten_content original_content) then
                 ret (record_rewrite result field field_name original_content
                        rewritten_content stats)
               else ret result
           | _ => raise AttributeError
           end
         else ret result)%prog
    end.

Definition process_item_with (item : value) (item_type : str) (fields_to_process : dict str)
    : M ItemResult :=
  match item with
  | VDict d =>
      (item_name <- of_result (item_name_of d item_type) ;;
       let result := {|
         id := item_id_of d;
         name := item_name;
         type := item_type;
         has_been_rewritten := false;
         rewrites := [];
         seo_stats := {| fields_rewritten := 0;
                         total_keywords_added := 0;
                         html_structure_improved := 0 |}
       |} in
       for_fold fields_to_process result (process_field d item_type item_name))%prog
  | _ => raise AttributeError
  end.

End Processor.

Definition process_item : value -> str -> dict str -> M ItemResult :=
  process_item_with rewrite_content_with_seo.

End Items.

(** ** The catalogue fetcher *)

Section Driver.
Context {RT : PyRuntime} {BS : HtmlParser}.

(** [l[:n]] for any integer [n] *)
Definition py_slice_list {A} (l : list A) (n : Z) : list A :=
  if (0 <=? n)%Z then slice_to (Z.to_nat n) l
  else slice_to (Z.to_nat (len l + n)) l.

(** [v[:n]]: lists and strings can be sliced *)
Definition py_slice_to (v : value) (n : Z) : exn + value :=
  match v with
  | VList l => inr (VList (py_slice_list l n))
  | VStr s => inr (VStr (py_slice_list s n))
  | _ => inl TypeError
  end.

(** [for x in v]: the elements of a list, the characters of a string, the
    keys of a dict *)
Definition py_iter (v : value) : exn + list value :=
  match v with
  | VList l => inr l
  | VStr s => inr (List.map (fun c => VStr [c]) s)
  | VDict d => inr (List.map (fun kv => VStr (fst kv)) d)
  | _ => inl TypeError
  end.

Definition limit_truthy (limit : option Z) : bool :=
  match limit with Some n => truthy (VInt n) | None => false end.

(** [requests.get(url, auth=HTTPBasicAuth(self.prestashop_key, ''), ...)] *)
Definition requests_get (url : str) (params : dict str) : M Response :=
  (self <- get_self ;;
   response <- trigger (HttpGet url (prestashop_key self, []) params) ;;
   of_result response)%prog.

(** [response.json().get(key, default)] *)
Definition json_get (response : Response) (key : str) (default : value) : M value :=
  (body <- of_result (json response) ;;
   of_result (py_get body key default))%prog.

(** [get_products], [get_categories] and [get_manufacturers] are the same
    code for three resources: [plural] names the collection and its key in
    the listing, [singular] the key in a detail answer. *)
Definition get_resource (plural singular message : str) (limit : option Z)
    : M (list value) :=
  try_except
    (self <- get_self ;;
     let url := prestashop_url self ++ u "/api/" ++ plural in
     let params :=
       [(u "display", u "[id]"); (u "output_format", u "JSON")]
       ++ match limit with
          | Some n => if truthy (VInt n) then [(u "limit", of_Z n)] else []
          | None => []
          end in
     response <- requests_get url params ;;
     if negb (status_code response =? 200)%Z then ret []
     else
       listed <- json_get response plural (VList []) ;;
       ids <- of_result
                (match limit with
                 | Some n => if truthy (VInt n) then py_slice_to listed n else inr listed
                 | None => inr listed
                 end) ;;
       entries <- of_result (py_iter ids) ;;
       for_fold entries [] (fun found entry =>
         entry_id <- of_result (py_get entry (u "id") VNone) ;;
         let detail_url := prestashop_url self ++ u "/api/" ++ plural ++ u "/" ++ py_str entry_id in
         detail_response <- requests_get detail_url [(u "output_format", u "JSON")] ;;
         if (status_code detail_response =? 200)%Z then
           detail <- json_get detail_response singular (VDict []) ;;
           ret (found ++ [detail])
         else ret found))%prog
    (fun e => (trigger (Print message e) ;; ret [])%prog).

Definition get_products : option Z -> M (list value) :=
  get_resource (u "products") (u "product") (u "[ERREUR] Récupération produits: ").

Definition get_categories : option Z -> M (list value) :=
  get_resource (u "categories") (u "category") (u "[ERREUR] Récupération catégories: ").

Definition get_manufacturers : option Z -> M (list value) :=
  get_resource (u "manufacturers") (u "manufacturer") (u "[ERREUR] Récupération marques: ").

(** ** The batch driver *)

Definition set_metadata (f : Metadata -> Metadata) (r : Results) : Results := {|
  metadata := f (metadata r);
  products := products r;
  categories := categories r;
  manufacturers := manufacturers r;
  errors := errors r
|}.

Definition set_total_products_analyzed (n : Z) (m : Metadata) : Metadata := {|
  date := date m; url := url m;
  total_products_analyzed := n;
  total_categories_analyzed := total_categories_analyzed m;
  total_manufacturers_analyzed := total_manufacturers_analyzed m;
  items_rewritten := items_rewritten m;
  seo_improvements := seo_improvements m
|}.

Definition set_total_categories_analyzed (n : Z) (m : Metadata) : Metadata := {|
  date := date m; url := url m;
  total_products_analyzed := total_products_analyzed m;
  total_categories_analyzed := n;
  total_manufacturers_analyzed := total_manufacturers_analyzed m;
  items_rewritten := items_rewritten m;
  seo_improvements := seo_improvements m
|}.

Definition set_total_manufacturers_analyzed (n : Z) (m : Metadata) : Metadata := {|
  date := date m; url := url m;
  total_products_analyzed := total_products_analyzed m;
  total_categories_analyzed := total_categories_analyzed m;
  total_manufacturers_analyzed := n;
  items_rewritten := items_rewritten m;
  seo_improvements := seo_improvements m
|}.

(** [self.results['metadata']['items_rewritten'] += 1] *)
Definition incr_items_rewritten (m : Metadata) : Metadata := {|
  date := date m; url := url m;
  total_products_analyzed := total_products_analyzed m;
  total_categories_analyzed := total_categories_analyzed m;
  total_manufacturers_analyzed := total_manufacturers_analyzed m;
  items_rewritten := items_rewritten m + 1;
  seo_improvements := seo_improvements m
|}.

(** The three collections of the results. *)
Inductive collection : Type := Products | Categories | Manufacturers.

(** [self.results[c].append(result)] *)
Definition append_result (c : collection) (result : ItemResult) (r : Results) : Results := {|
  metadata := metadata r;
  products := match c with Products => products r ++ [result] | _ => products r end;
  categories := match c with Categories => categories r ++ [result] | _ => categories r end;
  manufacturers :=
    match c with Manufacturers => manufacturers r ++ [result] | _ => manufacturers r end;
  errors := errors r
|}.

Definition product_fields : dict str :=
  [(u "name", u "Nom du produit");
   (u "description_short", u "Description courte");
   (u "meta_title", u "Meta titre");
   (u "meta_description", u "Meta description")].

Definition category_fields : dict str :=
  [(u "name", u "Nom de la catégorie");
   (u "description", u "Description");
   (u "additional_description", u "Informations complémentaires");
   (u "meta_title", u "Balise titre");
   (u "meta_description", u "Meta description")].

Definition manufacturer_fields : dict str :=
  [(u "name", u "Nom");
   (u "short_description", u "Résumé");
   (u "description", u "Description");
   (u "meta_title", u "Balise titre");
   (u "meta_description", u "Meta description")].

(** [enumerate(l, 1)] *)
Fixpoint enumerate_from {A} (i : Z) (l : list A) : list (Z * A) :=
  match l with
  | [] => []
  | x :: l' => (i, x) :: enumerate_from (i + 1) l'
  end.

(** One item of a batch: process it, append the result and count it when
    it was rewritten. *)
Definition process_and_record (c : collection) (item : value) (item_type : str)
    (fields : dict str) : M unit :=
  (result <- process_item item item_type fields ;;
   modify_results (append_result c result) ;;
   when (has_been_rewritten result) (modify_results (set_metadata incr_items_rewritten)))%prog.

(** The loop over the products, with its progress reports and its pause;
    [message i product] is the text reported for the item at index [i],
    whose computation may raise. *)
Definition process_products (items : list value) (progress_callback : bool)
    (message : Z -> value -> exn + str) : M unit :=
  for_each (enumerate_from 1 items) (fun '(i, product) =>
    (when progress_callback
       (text <- of_result (message i product) ;;
        trigger (ProgressCallback i (len items) text)) ;;
     process_and_record Products product (u "product") product_fields ;;
     trigger (Sleep (1 # 2)))%prog).

Definition process_categories (items : list value) : M unit :=
  for_each items (fun category =>
    process_and_record Categories category (u "category") category_fields).

Definition process_manufacturers (items : list value) : M unit :=
  for_each items (fun manufacturer =>
    process_and_record Manufacturers manufacturer (u "manufacturer") manufacturer_fields).

Definition nonempty {A} (l : list A) : bool := match l with [] => false | _ => true end.

Definition run_with_params (element_type : str) (nb_items : Z) (progress_callback : bool)
    : M Results :=
  let nb_items := if (nb_items =? 0)%Z then None else Some nb_items in
  let type_map :=
    [(u "Produits", u "1"); (u "Catégories", u "2"); (u "Marques", u "3"); (u "Tout", u "4")] in
  let choice := match dict_get element_type type_map with Some c => c | None => u "1" end in
  (when (str_in choice [u "1"; u "4"])
     (products <- get_products nb_items ;;
      when (nonempty products)
        (modify_results (set_metadata (set_total_products_analyzed (len products))) ;;
         process_products products progress_callback (fun i _ =>
           inr (u "Produit " ++ of_Z i ++ u "/" ++ of_Z (len products))))) ;;
   when (str_in choice [u "2"; u "4"])
     (categories <- get_categories nb_items ;;
      when (nonempty categories)
        (modify_results (set_metadata (set_total_categories_analyzed (len categories))) ;;
         process_categories categories)) ;;
   when (str_in choice [u "3"; u "4"])
     (manufacturers <- get_manufacturers nb_items ;;
      when (nonempty manufacturers)
        (modify_results (set_metadata (set_total_manufacturers_analyzed (len manufacturers))) ;;
         process_manufacturers manufacturers)) ;;
   self <- get_self ;;
   ret (results self))%prog.

(** The fetch loop of [run_with_specific_ids]: one detail request per
    identifier, a failure or a status other than 200 skipping it. *)
Definition fetch_by_ids (plural singular message : str) (specific_ids : list Z)
    (progress_callback : bool) : M (list value) :=
  for_fold (enumerate_from 1 specific_ids) [] (fun items '(i, item_id) =>
    (when progress_callback
       (trigger (ProgressCallback i (len specific_ids) (message ++ of_Z item_id))) ;;
     try_except
       (self <- get_self ;;
        let detail_url := prestashop_url self ++ u "/api/" ++ plural ++ u "/" ++ of_Z item_id in
        detail_response <- requests_get detail_url [(u "output_format", u "JSON")] ;;
        if (status_code detail_response =? 200)%Z then
          detail <- json_get detail_response singular (VDict []) ;;
          ret (items ++ [detail])
        else ret items)
       (fun _ => ret items))%prog).

Definition run_with_specific_ids (element_type : str) (specific_ids : list Z)
    (progress_callback : bool) : M Results :=
  let type_map :=
    [(u "Produits", u "products"); (u "Catégories", u "categories");
     (u "Marques", u "manufacturers")] in
  let item_type :=
    match dict_get element_type type_map with Some t => t | None => u "products" end in
  ((if str_eqb item_type (u "products") then
      items <- fetch_by_ids (u "products") (u "product") (u "Récupération produit ")
                 specific_ids progress_callback ;;
      when (nonempty items)
        (modify_results (set_metadata (set_total_products_analyzed (len items))) ;;
         process_products items progress_callback (fun _ product =>
           (product_id <- py_get product (u "id") VNone ;;
            inr (u "Traitement produit " ++ py_str product_id))%exc))
    else if str_eqb item_type (u "categories") then
      items <- fetch_by_ids (u "categories") (u "category") (u "Récupération catégorie ")
                 specific_ids progress_callback ;;
      when (nonempty items)
        (modify_results (set_metadata (set_total_categories_analyzed (len items))) ;;
         process_categories items)
    else if str_eqb item_type (u "manufacturers") then
      items <- fetch_by_ids (u "manufacturers") (u "manufacturer") (u "Récupération marque ")
                 specific_ids progress_callback ;;
      when (nonempty items)
        (modify_results (set_metadata (set_total_manufacturers_analyzed (len items))) ;;
         process_manufacturers items)
    else ret tt) ;;
   self <- get_self ;;
   ret (results self))%prog.

End Driver.

(** ** The identifier input of the dashboard *)

Section Dashboard.
Context {RT : PyRuntime}.

(** [range(lo, hi)] *)
Definition py_range (lo hi : Z) : list Z :=
  List.map (fun i => lo + Z.of_nat i)%Z (seq 0 (Z.to_nat (hi - lo))).

(** The identifiers of one token, or the warning it causes. *)
Definition parse_part (part : str) : str + list Z :=
  if contains (u "-") part then
    match split (u "-") part with
    | [start; stop] =>
        match py_int start, py_int stop with
        | Some lo, Some hi => inr (py_range lo (hi + 1))
        | _, _ => inl (u "Format invalide : " ++ part)
        end
    | _ => inl (u "Format invalide : " ++ part)
    end
  else
    match py_int part with
    | Some n => inr [n]
    | None => inl (u "ID invalide : " ++ part)
    end.

(** The loop over the tokens: [ids] grows, the warnings of [st.warning]
    are collected in order. *)
Fixpoint parse_parts (parts : list str) (ids : list Z) : list Z * list str :=
  match parts with
  | [] => (ids, [])
  | part :: rest =>
      match parse_part part with
      | inr found => parse_parts rest (ids ++ found)
      | inl warning =>
          let '(ids', warnings) := parse_parts rest ids in (ids', warning :: warnings)
      end
  end.

(** [parse_id_input]: the identifiers as a set, since [list(set(ids))]
    fixes no order, and the warnings shown. *)
Definition parse_id_input (id_input : str) : gset Z * list str :=
  if negb (truthy (VStr id_input)) then (∅, [])
  else
    let parts := split (u ",") (replace (u " ") (u "") id_input) in
    let '(ids, warnings) := parse_parts parts [] in
    (list_to_set ids, warnings).

End Dashboard.

(** ** Running a program *)

(** The generation requests a run sends, in order. *)
Fixpoint chat_requests {W A} (h : handler W) (p : Prog A) (w : W) : list ChatRequest :=
  match p with
  | Ret _ => []
  | Vis e k =>
      let '(x, w') := h _ e w in
      match e with
      | ChatCompletion req => [req]
      | _ => []
      end ++ chat_requests h (k x) w'
  end.

(** A world for evaluation: the generation API answers from a script, in
    turn, and fails when the script is exhausted; the shop answers each
    URL by a fixed table. *)
Definition scripted (shop : str -> exn + Response) : handler (list (exn + value)) :=
  fun X e =>
    match e in event X return list (exn + value) -> X * list (exn + value) with
    | ChatCompletion _ => fun w =>
        match w with
        | answer :: w' => (answer, w')
        | [] => (inl (ExternalError (u "no answer")), [])
        end
    | HttpGet url _ _ => fun w => (shop url, w)
    | ProgressCallback _ _ _ => fun w => (tt, w)
    | Sleep _ => fun w => (tt, w)
    | Print _ _ => fun w => (tt, w)
    end.

Definition no_shop : str -> exn + Response := fun _ => inl (ExternalError (u "unreachable")).

(** A parser for evaluation that recognises no tag: the text of a document
    is the document, trimmed. *)
#[local] Instance plain_text_parser : HtmlParser := {|
  soup := str;
  tag := Empty_set;
  BeautifulSoup := fun s => inr s;
  find_all := fun _ _ => inr [];
  tag_get := fun t _ _ => match t with end;
  tag_get_text := fun t => match t with end;
  soup_get_text := fun s _ => inr (strip s)
|}.

(** A parser whose constructor raises on every document. *)
Definition failing_parser : HtmlParser := {|
  soup := Empty_set;
  tag := Empty_set;
  BeautifulSoup := fun _ => inl (ExternalError (u "parse error"));
  find_all := fun s _ => match s with end;
  tag_get := fun t _ _ => match t with end;
  tag_get_text := fun t => match t with end;
  soup_get_text := fun s _ => match s with end
|}.

Definition a_rewriter : Rewriter :=
  init (u "https://shop.example/") (u "KEY") (u "2024-04-01T00:00:00").

(** ** Properties of methods *)

(** [preserves P m]: the method [m] keeps the property [P] of [self],
    whether it returns or raises. *)
Definition preserves {A} (P : Rewriter -> Prop) (m : M A) : Prop :=
  forall self, P self -> always (m self) (fun rs => P (snd rs)).

Section RewriteStep.
Context {RT : PyRuntime}.

(** Whether the rewrite step starts at all: the content is non-empty and
    has at least ten characters once trimmed. *)
Definition long_enough_to_rewrite (content : str) : bool :=
  negb (negb (truthy (VStr content)) || (len (strip content) <? 10)%Z).

(** The message printed when the generation fails. *)
Definition rewrite_error : str := u "[ERREUR] Réécriture: ".

(** What the step returns once the world has answered the generation
    call with [response]. *)
Definition outcome_of (content field_type : str) (response : exn + value)
    : str * option Stats :=
  let '(price_prefix, rest) := split_price field_type content in
  match ebind response py_strip with
  | inr answer =>
      let rewritten := normalize field_type price_prefix answer in
      (rewritten,
       Some (make_stats rest price_prefix rewritten (has_vapoteur_discount content)))
  | inl e =>
      (if truthy (VStr price_prefix) then price_prefix ++ rest else rest, None)
  end.

(** The request the step sends. *)
Definition request_of (content field_type item_name item_type : str) : ChatRequest :=
  let '(price_prefix, rest) := split_price field_type content in
  chat_request (build_prompt rest field_type item_name item_type price_prefix
                  (has_vapoteur_discount content)).

End RewriteStep.



(** A rewrite step that refuses the contents the item processor is not to
    pass on: five characters or fewer once trimmed. *)
Definition guarded_rewrite {RT : PyRuntime} (content field_type item_name item_type : str)
    (html_structure : dict value) : M (str * option Stats) :=
  if (5 <? len (strip content))%Z
  then rewrite_content_with_seo content field_type item_name item_type html_structure
  else raise ValueError.

(** The counters of an item result agree with its list of rewrites. *)
Definition consistent (r : ItemResult) : Prop :=
  fields_rewritten (seo_stats r) = len (rewrites r)
  /\ (has_been_rewritten r = true <-> rewrites r <> []).

(** The outcome of a method, when it returned. *)
Definition returned {A} (rs : (exn + A) * Rewriter) (Q : A -> Prop) : Prop :=
  match fst rs with
  | inr a => Q a
  | inl _ => True
  end.

(** The catalogue fields of an item are all plain strings. *)
Definition textual (d : dict value) : Prop :=
  Forall (fun kv => exists s, snd kv = VStr s) d.

(** The number of item results marked as rewritten. *)
Definition count_rewritten (l : list ItemResult) : Z :=
  len (List.filter has_been_rewritten l).

(** The invariant of the run results: [items_rewritten] counts the item
    results marked as rewritten in the three collections. *)
Definition items_rewritten_invariant (r : Results) : Prop :=
  items_rewritten (metadata r)
  = (count_rewritten (products r) + count_rewritten (categories r)
     + count_rewritten (manufacturers r))%Z.

(** A string of characters of a class; of the whitespace that [int]
    skips. *)
Definition all_of (p : char -> bool) (w : str) : Prop := Forall (fun c => p c = true) w.

Definition spaces (w : str) : Prop := all_of is_int_space w.

(** The runtime gives the ASCII digits their values. *)
Definition ascii_digits {RT : PyRuntime} : Prop :=
  forall c : char, (48 <= c <= 57)%N -> decimal_value c = Some (Z.of_N (c - 48)).

(** The rewriter's results satisfy the invariant. *)
Definition keeps_count (self : Rewriter) : Prop := items_rewritten_invariant (results self).

(** A driver returns the results held by [self]. *)
Definition returns_own_results (rs : (exn + Results) * Rewriter) : Prop :=
  returned rs (fun r => r = results (snd rs)).

Section Tokens.
Context {RT : PyRuntime}.

(** A token that is a single integer [n]. *)
Definition token_single (part : str) (n : Z) : Prop :=
  ~ In 45%N part /\ py_int part = Some n.

(** A token that is a range from [lo] to [hi]: two integers around one
    hyphen. *)
Definition token_range (part : str) (lo hi : Z) : Prop :=
  exists start stop : str,
    part = start ++ u "-" ++ stop /\ ~ In 45%N start /\ ~ In 45%N stop
    /\ py_int start = Some lo /\ py_int stop = Some hi.

(** The identifiers a token stands for. *)
Definition token_ids (part : str) (x : Z) : Prop :=
  token_single part x
  \/ exists lo hi, token_range part lo hi /\ (lo <= x <= hi)%Z.

(** A token that is neither. *)
Definition malformed (part : str) : Prop :=
  (forall n, ~ token_single part n) /\ (forall lo hi, ~ token_range part lo hi).

(** The tokens of an input: its pieces between commas, spaces removed. *)
Definition tokens (id_input : str) : list str :=
  split (u ",") (replace (u " ") (u "") id_input).

End Tokens.

(** A shop for evaluation with one product, number 424. *)
Definition one_product_shop : str -> exn + Response := fun url =>
  if str_eqb url (u "https://shop.example/api/products") then
    inr {| status_code := 200;
           json := inr (VDict [(u "products", VList [VDict [(u "id", VInt 424)]])]) |}
  else if str_eqb url (u "https://shop.example/api/products/424") then
    inr {| status_code := 200;
           json := inr (VDict [(u "product",
                     VDict [(u "id", VInt 424);
                            (u "name", VDict [(u "language",
                               VList [VDict [(u "id", VStr (u "1"));
                                             (u "value", VStr (u "Fruits rouges 10 ml"))]])]);
                            (u "description_short",
                               VStr (u "Ce e-liquide délicieux et savoureux offre un plaisir intense."))])]) |}
  else inr {| status_code := 404; json := inl ValueError |}.

(** * Proofs *)

(** ** Evaluation on concrete inputs *)

Example u_euro : u "€ é" = [8364; 32; 233]%N.
Proof. reflexivity. Qed.

Example split_example :
  split (u ". ") (u "a. b.. c. ") = [u "a"; u "b."; u "c"; u ""].
Proof. reflexivity. Qed.

Example of_Z_example : of_Z 424 = u "424" /\ of_Z (-7) = u "-7" /\ of_Z 0 = u "0".
Proof. repeat split; reflexivity. Qed.

Example price_match_example :
  Re.match_prefix price_pattern (u "Prix : 12,90 € | E-liquide 10ml")
  = Some (u "Prix : 12,90 € | ").
Proof. reflexivity. Qed.

Example tag_remove_example :
  Re.remove_all tag_pattern (u "<p>Bonjour <b>vous</b></p> a<>b < c") = u "Bonjour vous a<>b < c".
Proof. reflexivity. Qed.

Example py_int_example :
  py_int (u " 4_24 ") = Some 424%Z /\ py_int (u "4__2") = None /\ py_int (u "") = None
  /\ py_int (u "-5") = Some (-5)%Z /\ py_int (u "12a") = None
  /\ py_int ([160%N] ++ u "5" ++ [9%N]) = Some 5%Z /\ py_int ([28%N] ++ u "5") = None.
Proof. repeat split; reflexivity. Qed.

Example parse_id_input_example :
  parse_id_input (u "424-426, 430,x,5-") =
  ({[424; 425; 426; 430]}%Z, [u "ID invalide : x"; u "Format invalide : 5-"]).
Proof. vm_compute. reflexivity. Qed.

Example strip_code_fences_example :
  strip_code_fences
    (join [chr_newline]
       [u "Intro"; u "```html"; u "<p>x</p>"; u "```"; u "Texte final "; u ""])
  = join [chr_newline] [u "Intro"; u "Texte final"]
  /\ strip_code_fences (join [chr_newline] [u "```"; u "seul"; u "```"]) = u ""
  /\ strip_code_fences (join [chr_newline] [u "a ``` b"; u "c"]) = u ""
  /\ strip_code_fences (u "sans marqueur ") = u "sans marqueur ".
Proof. repeat split; reflexivity. Qed.

Example count_keywords_example :
  count_keywords (u "Vape vapevape E-Liquide e-liquide Nicotine VAPOTAGE")
  = [(u "e-liquide", 2%Z); (u "vapotage", 1%Z); (u "cigarette électronique", 0%Z);
     (u "vape", 3%Z); (u "nicotine", 1%Z)].
Proof. reflexivity. Qed.

Example split_ws_example :
  split_ws (u "  un  deux" ++ [9%N] ++ u "trois" ++ [10%N]) = [u "un"; u "deux"; u "trois"]
  /\ split_ws (u "  ") = [].
Proof. split; reflexivity. Qed.

Example extract_content_example :
  extract_content (VDict [(u "language",
                            VList [VDict [(u "id", VStr (u "1")); (u "value", VStr (u "x"))]])])
  = inr (VStr (u "x"))
  /\ extract_content (VDict [(u "language", VDict [(u "value", VStr (u "y"))])])
     = inr (VStr (u "y"))
  /\ extract_content (VDict [(u "language", VInt 5)]) = inr (VStr [])
  /\ extract_content (VDict [(u "language", VList [VStr (u "x")])]) = inl AttributeError
  /\ extract_content (VDict [(u "value", VInt 3)]) = inr (VInt 3)
  /\ extract_content (VList [VStr (u "a"); VStr (u "b")]) = inr (VStr (u "a"))
  /\ extract_content (VList []) = inr (VStr [])
  /\ extract_content (VInt 5) = inr (VStr (u "5"))
  /\ extract_content (VInt 0) = inr (VStr [])
  /\ extract_content VNone = inr (VStr [])
  /\ extract_content (VBool true) = inr (VStr (u "True"))
  /\ extract_content (VStr (u "txt")) = inr (VStr (u "txt")).
Proof. repeat split; reflexivity. Qed.

Example init_example :
  prestashop_url a_rewriter = u "https://shop.example"
  /\ url (metadata (results a_rewriter)) = u "https://shop.example/".
Proof. split; reflexivity. Qed.

Example tag_search_example :
  Re.search tag_pattern (u "a <b c") = false
  /\ Re.search tag_pattern (u "a <b" ++ [10%N] ++ u "> c") = true.
Proof. split; reflexivity. Qed.

(** ** Facts about programs *)

Arguments u : simpl never.

Section ProgFacts.

Lemma interp_bind {W A B} (h : handler W) (p : Prog A) (f : A -> Prog B) (w : W) :
  interp h (prog_bind p f) w = let '(a, w') := interp h p w in interp h (f a) w'.
Proof.
  revert w. induction p as [a | X e k IH]; intros w; simpl.
  - reflexivity.
  - destruct (h X e w) as [x w']. apply IH.
Qed.

Lemma chat_requests_bind {W A B} (h : handler W) (p : Prog A) (f : A -> Prog B) (w : W) :
  chat_requests h (prog_bind p f) w =
  chat_requests h p w ++ (let '(a, w') := interp h p w in chat_requests h (f a) w').
Proof.
  revert w. induction p as [a | X e k IH]; intros w; simpl.
  - reflexivity.
  - destruct (h X e w) as [x w']. rewrite IH. rewrite app_assoc. reflexivity.
Qed.

Lemma always_mono {A} (p : Prog A) (Q R : A -> Prop) :
  (forall a, Q a -> R a) -> always p Q -> always p R.
Proof.
  intros HQR. induction p as [a | X e k IH]; simpl.
  - apply HQR.
  - intros Hk x. apply IH, Hk.
Qed.

Lemma always_all {A} (p : Prog A) (Q : A -> Prop) : (forall a, Q a) -> always p Q.
Proof.
  intros HQ. induction p as [a | X e k IH]; simpl; auto.
Qed.

Lemma always_bind {A B} (p : Prog A) (f : A -> Prog B) (Q : B -> Prop) :
  always p (fun a => always (f a) Q) -> always (prog_bind p f) Q.
Proof.
  induction p as [a | X e k IH]; simpl.
  - auto.
  - intros Hk x. apply IH, Hk.
Qed.

Lemma always_and {A} (p : Prog A) (Q R : A -> Prop) :
  always p Q -> always p R -> always p (fun a => Q a /\ R a).
Proof.
  induction p as [a | X e k IH]; simpl.
  - auto.
  - intros HQ HR x. apply IH; auto.
Qed.

(** What holds of every run holds of the run against any world. *)
Lemma always_interp {W A} (h : handler W) (p : Prog A) (Q : A -> Prop) (w : W) :
  always p Q -> Q (fst (interp h p w)).
Proof.
  revert w. induction p as [a | X e k IH]; intros w; simpl.
  - auto.
  - intros Hk. destruct (h X e w) as [x w']. apply IH, Hk.
Qed.

End ProgFacts.

Section Preservation.
Variable P : Rewriter -> Prop.

Lemma preserves_ret {A} (a : A) : preserves P (ret a).
Proof. intros self HP. exact HP. Qed.

Lemma preserves_raise {A} (e : exn) : preserves P (@raise A e).
Proof. intros self HP. exact HP. Qed.

Lemma preserves_of_result {A} (r : exn + A) : preserves P (of_result r).
Proof. destruct r; [apply preserves_raise | apply preserves_ret]. Qed.

Lemma preserves_trigger {X} (e : event X) : preserves P (trigger e).
Proof. intros self HP x. exact HP. Qed.

Lemma preserves_get_self : preserves P get_self.
Proof. intros self HP. exact HP. Qed.

Lemma preserves_bind {A B} (m : M A) (f : A -> M B) :
  preserves P m -> (forall a, preserves P (f a)) -> preserves P (bind m f).
Proof.
  intros Hm Hf self HP. unfold bind. apply always_bind.
  eapply always_mono; [| apply Hm, HP].
  intros [[e | a] self'] HP'; simpl in *.
  - exact HP'.
  - apply Hf, HP'.
Qed.

Lemma preserves_try_except {A} (m : M A) (handle : exn -> M A) :
  preserves P m -> (forall e, preserves P (handle e)) -> preserves P (try_except m handle).
Proof.
  intros Hm Hh self HP. unfold try_except. apply always_bind.
  eapply always_mono; [| apply Hm, HP].
  intros [[e | a] self'] HP'; simpl in *.
  - apply Hh, HP'.
  - exact HP'.
Qed.

Lemma preserves_for_fold {A S} (l : list A) (s : S) (body : S -> A -> M S) :
  (forall s x, preserves P (body s x)) -> preserves P (for_fold l s body).
Proof.
  intros Hbody. revert s. induction l as [| x l IH]; intros s; simpl.
  - apply preserves_ret.
  - apply preserves_bind; auto.
Qed.

Lemma preserves_for_each {A} (l : list A) (body : A -> M unit) :
  (forall x, preserves P (body x)) -> preserves P (for_each l body).
Proof. intros Hbody. apply preserves_for_fold. auto. Qed.

Lemma preserves_when (b : bool) (m : M unit) : preserves P m -> preserves P (when b m).
Proof. intros Hm. destruct b; [exact Hm | apply preserves_ret]. Qed.

End Preservation.

Create HintDb preserve discriminated.
#[local] Hint Resolve preserves_ret preserves_raise preserves_of_result preserves_trigger
  preserves_get_self : preserve.

(** Chains of binds, loops and handlers of methods that keep [P]: the
    structure of the method is followed, the leaves are closed by the
    hints. *)
Ltac preserve_step :=
  lazymatch goal with
  | |- preserves _ (bind _ _) => apply preserves_bind; [| intros ?; cbv beta]
  | |- preserves _ (try_except _ _) => apply preserves_try_except; [| intros ?; cbv beta]
  | |- preserves _ (for_fold _ _ _) => apply preserves_for_fold; intros ? ?; cbv beta
  | |- preserves _ (for_each _ _) => apply preserves_for_each; intros ?; cbv beta
  | |- preserves _ (when _ _) => apply preserves_when
  | |- preserves _ (if ?b then _ else _) => destruct b
  | |- preserves _ (match ?x with _ => _ end) => destruct x
  | |- preserves _ _ => solve [auto with preserve]
  end.

Ltac preserve := repeat preserve_step.

(** ** The rewrite step, run against a world *)

Section RewriteFacts.
Context {RT : PyRuntime}.

Lemma rewrite_skipped content field_type item_name item_type hs self :
  long_enough_to_rewrite content = false ->
  rewrite_content_with_seo content field_type item_name item_type hs self
  = Ret (inr (content, None), self).
Proof.
  unfold long_enough_to_rewrite, rewrite_content_with_seo. intros Hg.
  apply negb_false_iff in Hg. rewrite Hg. reflexivity.
Qed.

Lemma rewrite_run {W} (h : handler W) (w : W) content field_type item_name item_type hs self :
  long_enough_to_rewrite content = true ->
  interp h (rewrite_content_with_seo content field_type item_name item_type hs self) w =
  let '(response, w1) := h _ (ChatCompletion (request_of content field_type item_name item_type)) w in
  match ebind response py_strip with
  | inr _ => ((inr (outcome_of content field_type response), self), w1)
  | inl e =>
      ((inr (outcome_of content field_type response), self),
       snd (h _ (Print rewrite_error e) w1))
  end.
Proof.
  unfold long_enough_to_rewrite, rewrite_content_with_seo, request_of, outcome_of.
  intros Hg. apply negb_true_iff in Hg. rewrite Hg.
  destruct (split_price field_type content) as [price_prefix rest].
  unfold try_except, bind, trigger. simpl.
  destruct (h _ _ w) as [response w1].
  destruct response as [e | message]; simpl.
  - destruct (h _ (Print _ e) w1) as [[] w2]. reflexivity.
  - destruct (py_strip message) as [e | answer]; simpl.
    + destruct (h _ (Print _ e) w1) as [[] w2]. reflexivity.
    + reflexivity.
Qed.

Lemma rewrite_requests {W} (h : handler W) (w : W) content field_type item_name item_type hs self :
  chat_requests h (rewrite_content_with_seo content field_type item_name item_type hs self) w
  = if long_enough_to_rewrite content
    then [request_of content field_type item_name item_type]
    else [].
Proof.
  destruct (long_enough_to_rewrite content) eqn:Hg.
  - unfold long_enough_to_rewrite, rewrite_content_with_seo, request_of in *.
    apply negb_true_iff in Hg. rewrite Hg.
    destruct (split_price field_type content) as [price_prefix rest].
    unfold try_except, bind, trigger. simpl.
    destruct (h _ _ w) as [response w1].
    destruct response as [e | message]; simpl.
    + destruct (h _ (Print _ e) w1) as [[] w2]. reflexivity.
    + destruct (py_strip message) as [e | answer]; simpl.
      * destruct (h _ (Print _ e) w1) as [[] w2]. reflexivity.
      * reflexivity.
  - rewrite rewrite_skipped by assumption. reflexivity.
Qed.

End RewriteFacts.

(** ** Methods run against a world *)

Lemma interp_mbind {W A B} (h : handler W) (m : M A) (f : A -> M B) self (w : W) :
  interp h (bind m f self) w =
  match interp h (m self) w with
  | ((inl e, self'), w') => ((inl e, self'), w')
  | ((inr a, self'), w') => interp h (f a self') w'
  end.
Proof.
  unfold bind. rewrite interp_bind.
  destruct (interp h (m self) w) as [[[e | a] self'] w']; reflexivity.
Qed.

Lemma interp_try_except {W A} (h : handler W) (m : M A) (handle : exn -> M A) self (w : W) :
  interp h (try_except m handle self) w =
  match interp h (m self) w with
  | ((inl e, self'), w') => interp h (handle e self') w'
  | ((inr a, self'), w') => ((inr a, self'), w')
  end.
Proof.
  unfold try_except. rewrite interp_bind.
  destruct (interp h (m self) w) as [[[e | a] self'] w']; reflexivity.
Qed.

Lemma str_eqb_eq (a b : str) : str_eqb a b = true <-> a = b.
Proof.
  revert b. induction a as [| x a IH]; intros [| y b]; simpl; split; try congruence.
  - intros H. apply andb_true_iff in H as [Hxy Hab].
    apply N.eqb_eq in Hxy. apply IH in Hab. congruence.
  - intros H. injection H as -> ->. apply andb_true_iff. split.
    + apply N.eqb_refl.
    + apply IH. reflexivity.
Qed.

Lemma str_eqb_refl (a : str) : str_eqb a a = true.
Proof. apply str_eqb_eq. reflexivity. Qed.

Lemma str_eqb_neq (a b : str) : str_eqb a b = false <-> a <> b.
Proof.
  rewrite <- str_eqb_eq. destruct (str_eqb a b); split; congruence.
Qed.

Section ItemFacts.
Context {RT : PyRuntime} {BS : HtmlParser}.

(** The item processor calls the rewrite step only on contents of more
    than five characters once trimmed: two steps that agree on those
    contents give the same processing. *)
Lemma process_field_gate {W} (h : handler W) rw rw' :
  (forall c ft n t hs self, (5 < len (strip c))%Z -> rw c ft n t hs self = rw' c ft n t hs self) ->
  forall item item_type item_name result entry self (w : W),
    interp h (process_field rw item item_type item_name result entry self) w
    = interp h (process_field rw' item item_type item_name result entry self) w.
Proof.
  intros Hagree item item_type item_name result [field field_name] self w.
  unfold process_field.
  destruct (str_in field (fields_to_skip item_type)); [reflexivity |].
  destruct (dict_get field item) as [field_data |]; [| reflexivity].
  rewrite !interp_mbind.
  destruct (interp h (of_result (extract_content field_data) self) w)
    as [[[e | original] self1] w1]; [reflexivity |].
  rewrite !interp_mbind.
  destruct (truthy original); [| reflexivity].
  rewrite interp_mbind.
  destruct original; simpl; try reflexivity.
  destruct (5 <? len (strip s))%Z eqn:Hlen; [| reflexivity].
  apply Z.ltb_lt in Hlen.
  destruct (extract_and_preserve_html s) as [text_content html_structure].
  rewrite !interp_mbind. rewrite (Hagree s field_name item_name item_type html_structure self1 Hlen).
  reflexivity.
Qed.

Lemma process_item_gate {W} (h : handler W) rw rw' :
  (forall c ft n t hs self, (5 < len (strip c))%Z -> rw c ft n t hs self = rw' c ft n t hs self) ->
  forall item item_type fields self (w : W),
    interp h (process_item_with rw item item_type fields self) w
    = interp h (process_item_with rw' item item_type fields self) w.
Proof.
  intros Hagree item item_type fields self w.
  unfold process_item_with. destruct item; try reflexivity.
  rewrite !interp_mbind.
  destruct (item_name_of d item_type) as [e | item_name]; [reflexivity |]. simpl.
  match goal with
  | |- interp h (for_fold fields ?r _ self) w = _ => generalize r
  end.
  intros result. revert result self w.
  induction fields as [| entry fields IH]; intros result self2 w2; simpl.
  - reflexivity.
  - rewrite !interp_mbind.
    rewrite (process_field_gate h rw rw' Hagree).
    destruct (interp h (process_field rw' d item_type item_name result entry self2) w2)
      as [[[e | result'] self3] w3]; [reflexivity |].
    apply IH.
Qed.

End ItemFacts.

(** ** Short contents *)

(** C5: a content that is empty or shorter than ten characters once
    trimmed comes back from the rewrite step unchanged, with empty stats and
    without any event; and the item processor consults the rewrite step only
    for contents of more than five trimmed characters, so that two rewrite
    steps that agree on those give the same processing of every item. *)
Theorem short_content_is_left_alone {RT : PyRuntime} {BS : HtmlParser} :
  (forall content field_type item_name item_type hs self,
      content = [] \/ (len (strip content) < 10)%Z ->
      rewrite_content_with_seo content field_type item_name item_type hs self
      = Ret (inr (content, None), self))
  /\
  (forall rw rw' : str -> str -> str -> str -> dict value -> M (str * option Stats),
      (forall c ft n t hs self,
          (5 < len (strip c))%Z -> rw c ft n t hs self = rw' c ft n t hs self) ->
      forall W (h : handler W) item item_type fields self w,
        interp h (process_item_with rw item item_type fields self) w
        = interp h (process_item_with rw' item item_type fields self) w).
Proof.
  split.
  - intros content field_type item_name item_type hs self Hshort.
    apply rewrite_skipped. unfold long_enough_to_rewrite.
    apply negb_false_iff, orb_true_iff.
    destruct Hshort as [-> | Hlen].
    + left. reflexivity.
    + right. apply Z.ltb_lt, Hlen.
  - intros rw rw' Hagree W h item item_type fields self w.
    apply process_item_gate, Hagree.
Qed.

Lemma short_content_is_left_alone_witness :
  rewrite_content_with_seo (u "  10 ml   ") (u "Description") (u "Fiole") (u "product") []
    a_rewriter
  = Ret (inr (u "  10 ml   ", None), a_rewriter)
  /\ interp (scripted no_shop)
       (process_item_with rewrite_content_with_seo
          (VDict [(u "id", VInt 7); (u "meta_title", VStr (u " 10ml "))])
          (u "product") product_fields a_rewriter) []
     = interp (scripted no_shop)
         (process_item_with guarded_rewrite
            (VDict [(u "id", VInt 7); (u "meta_title", VStr (u " 10ml "))])
            (u "product") product_fields a_rewriter) [].
Proof.
  destruct (@short_content_is_left_alone ascii_runtime plain_text_parser) as [Hskip Hgate].
  split.
  - apply Hskip. right. vm_compute. reflexivity.
  - apply Hgate. intros c ft n t hs self Hlen. unfold guarded_rewrite.
    apply Z.ltb_lt in Hlen. rewrite Hlen. reflexivity.
Defined.

(** ** The price label of a meta description *)

Section PriceFacts.
Context {RT : PyRuntime}.

Lemma slice_to_from {A} (n : nat) (l : list A) :
  l = slice_to n l ++ slice_from (length (slice_to n l)) l.
Proof.
  unfold slice_to, slice_from. revert n.
  induction l as [| x l IH]; intros [| n]; simpl; try reflexivity.
  f_equal. apply IH.
Qed.

Lemma match_prefix_split pat (s p : str) :
  Re.match_prefix pat s = Some p -> s = p ++ slice_from (length p) s.
Proof.
  unfold Re.match_prefix. destruct (Re.re_match pat s) as [n |]; simpl; [| discriminate].
  intros [= <-]. apply slice_to_from.
Qed.

Lemma literal_prix :
  Re.literal (u "Prix") = [Re.lit 80; Re.lit 114; Re.lit 105; Re.lit 120]%N.
Proof. reflexivity. Qed.

Lemma re_match_one p r (s : str) n :
  Re.re_match (Re.One p :: r) s = Some n -> exists c s' n', s = c :: s' /\ n = S n'.
Proof.
  destruct s as [| c s']; simpl; [discriminate |].
  destruct (p c); [| discriminate].
  destruct (Re.re_match r s') as [n' |]; simpl; [| discriminate].
  intros [= <-]. eauto.
Qed.

Lemma price_pattern_head : exists r, price_pattern = Re.lit 80%N :: r.
Proof. eexists. unfold price_pattern. rewrite literal_prix. reflexivity. Qed.

Lemma price_prefix_nonempty (s p : str) :
  Re.match_prefix price_pattern s = Some p -> p <> [].
Proof.
  unfold Re.match_prefix. destruct price_pattern_head as [r ->].
  destruct (Re.re_match (Re.lit 80%N :: r) s) as [n |] eqn:Hn; simpl; [| discriminate].
  apply re_match_one in Hn as (c & s' & n' & -> & ->).
  intros [= <-]. discriminate.
Qed.

Lemma truthy_nonempty (s : str) : s <> [] -> truthy (VStr s) = true.
Proof. destruct s; [congruence | reflexivity]. Qed.

Lemma split_price_matched (content p : str) :
  Re.match_prefix price_pattern content = Some p ->
  split_price (u "Meta description") content
  = (p, strip (slice_from (length p) content)).
Proof.
  intros Hm. unfold split_price. rewrite str_eqb_refl, Hm. reflexivity.
Qed.


Lemma normalize_meta_description (p answer : str) :
  p <> [] ->
  normalize (u "Meta description") p answer = p ++ strip_code_fences answer.
Proof.
  intros Hp. unfold normalize, reattach_price, wrap_paragraphs.
  rewrite (truthy_nonempty p Hp).
  change (is_long_form (u "Meta description")) with false. reflexivity.
Qed.

End PriceFacts.

(** C1, as the code has it: when a meta description starts with the price
    label, the label is a prefix of the input and, whatever the generation
    call answers, the same label starts the returned content; the text put
    in the prompt's section of the content to rewrite is the input without
    this leading label, trimmed. The only generation request of the run is
    the one built from that text; its prompt also quotes the label, in the
    instruction that tells the model to leave it out. *)
Theorem price_prefix_survives {RT : PyRuntime} :
  forall content item_name item_type hs self price_prefix,
    Re.match_prefix price_pattern content = Some price_prefix ->
    let rest := slice_from (length price_prefix) content in
    content = price_prefix ++ rest
    /\ (forall W (h : handler W) w,
           exists tail st,
             fst (fst (interp h (rewrite_content_with_seo content (u "Meta description")
                                   item_name item_type hs self) w))
             = inr (price_prefix ++ tail, st))
    /\ (forall W (h : handler W) w req,
           In req (chat_requests h (rewrite_content_with_seo content (u "Meta description")
                                      item_name item_type hs self) w) ->
           req = chat_request (build_prompt (strip rest) (u "Meta description") item_name
                                 item_type price_prefix (has_vapoteur_discount content))).
Proof.
  intros content item_name item_type hs self p Hm rest.
  pose proof (match_prefix_split _ _ _ Hm) as Hsplit.
  pose proof (price_prefix_nonempty _ _ Hm) as Hne.
  pose proof (split_price_matched _ _ Hm) as Hprice.
  split; [exact Hsplit |]. split.
  - intros W h w.
    destruct (long_enough_to_rewrite content) eqn:Hg.
    + rewrite rewrite_run by exact Hg.
      destruct (h _ _ w) as [response w1].
      unfold outcome_of. rewrite Hprice.
      destruct (ebind response py_strip) as [e | answer]; cbn [fst].
      * rewrite (truthy_nonempty p Hne). eauto.
      * rewrite normalize_meta_description by exact Hne. eauto.
    + rewrite rewrite_skipped by exact Hg. simpl.
      exists rest, None. unfold rest. rewrite <- Hsplit. reflexivity.
  - intros W h w req. rewrite rewrite_requests.
    destruct (long_enough_to_rewrite content); simpl; [| tauto].
    intros [<- | []]. unfold request_of, rest. rewrite Hprice. reflexivity.
Qed.

Lemma price_prefix_survives_witness :
  let content := u "Prix : 12,90 € | E-liquide fruits rouges 10 ml" in
  content = u "Prix : 12,90 € | " ++ slice_from 17 content
  /\ (exists tail st,
         fst (fst (interp (scripted no_shop)
                     (rewrite_content_with_seo content (u "Meta description")
                        (u "Fruits rouges") (u "product") [] a_rewriter)
                     [inr (VStr (u "E-liquide aux fruits rouges, flacon de 10 ml."))]))
         = inr (u "Prix : 12,90 € | " ++ tail, st)).
Proof.
  intros content.
  destruct (@price_prefix_survives ascii_runtime content (u "Fruits rouges") (u "product") []
              a_rewriter (u "Prix : 12,90 € | ") eq_refl) as (Hsplit & Hout & _).
  split.
  - exact Hsplit.
  - apply Hout.
Defined.

(** C1 as stated fails: the prompt sent to the generation call quotes the
    price label, and a content that repeats the label keeps the second copy
    in the text to rewrite. *)
Lemma price_prefix_reaches_the_prompt :
  let price_prefix := u "Prix : 12,90 € | " in
  let run content :=
    chat_requests (scripted no_shop)
      (rewrite_content_with_seo (RT := ascii_runtime) content (u "Meta description")
         (u "Fruits rouges") (u "product") [] a_rewriter) [] in
  let plain := u "Prix : 12,90 € | E-liquide fruits rouges 10 ml" in
  let doubled := u "Prix : 12,90 € | Prix : 12,90 € | E-liquide 10 ml" in
  Re.match_prefix (price_pattern (RT := ascii_runtime)) plain = Some price_prefix
  /\ (exists req prompt,
         run plain = [req] /\ In (u "user", prompt) (messages req)
         /\ contains price_prefix prompt = true)
  /\ Re.match_prefix (price_pattern (RT := ascii_runtime)) doubled = Some price_prefix
  /\ run doubled
     = [chat_request (build_prompt (u "Prix : 12,90 € | E-liquide 10 ml")
                        (u "Meta description") (u "Fruits rouges") (u "product")
                        price_prefix false)]
  /\ contains price_prefix (u "Prix : 12,90 € | E-liquide 10 ml") = true.
Proof.
  intros price_prefix run plain doubled. split; [reflexivity |]. split.
  - eexists. eexists. split; [vm_compute; reflexivity |]. split.
    + right. left. reflexivity.
    + vm_compute. reflexivity.
  - split; [reflexivity |]. split; vm_compute; reflexivity.
Qed.

(** ** The brand flag *)

Section StatsFacts.
Context {RT : PyRuntime}.

(** When the generation call answers a text, the step returns the
    normalised text with full stats. *)
Lemma rewrite_answered {W} (h : handler W) (w : W) content field_type item_name item_type hs
    self message :
  long_enough_to_rewrite content = true ->
  fst (h _ (ChatCompletion (request_of content field_type item_name item_type)) w)
  = inr (VStr message) ->
  fst (fst (interp h (rewrite_content_with_seo content field_type item_name item_type hs self) w))
  = let '(price_prefix, rest) := split_price field_type content in
    let rewritten := normalize field_type price_prefix (strip message) in
    inr (rewritten,
         Some (make_stats rest price_prefix rewritten (has_vapoteur_discount content))).
Proof.
  intros Hg Hanswer. rewrite rewrite_run by exact Hg.
  destruct (h _ _ w) as [response w1]. simpl in Hanswer. subst response.
  unfold outcome_of. destruct (split_price field_type content) as [p rest].
  reflexivity.
Qed.

(** When the generation fails, the step returns the price label followed
    by the trimmed remainder, or the content when no label was taken off,
    with empty stats. *)
Lemma rewrite_failed {W} (h : handler W) (w : W) content field_type item_name item_type hs
    self e :
  long_enough_to_rewrite content = true ->
  fst (h _ (ChatCompletion (request_of content field_type item_name item_type)) w) = inl e ->
  fst (fst (interp h (rewrite_content_with_seo content field_type item_name item_type hs self) w))
  = let '(price_prefix, rest) := split_price field_type content in
    inr (if truthy (VStr price_prefix) then price_prefix ++ rest else rest, None).
Proof.
  intros Hg Hanswer. rewrite rewrite_run by exact Hg.
  destruct (h _ _ w) as [response w1]. simpl in Hanswer. subst response.
  unfold outcome_of. destruct (split_price field_type content) as [p rest].
  reflexivity.
Qed.

End StatsFacts.


(** ** Paragraphs *)

Section ParagraphFacts.
Context {RT : PyRuntime}.






End ParagraphFacts.




Example brand_flag_example :
  let run message :=
    fst (fst (interp (scripted no_shop)
                (rewrite_content_with_seo (u "LE VAPOTEUR DISCOUNT vous propose ce flacon.")
                   (u "Meta titre") (u "Fiole") (u "product") [] a_rewriter)
                [inr (VStr message)])) in
  option_map brand_preserved
    (match run (u "Flacon propose par Le Vapoteur Discount") with
     | inr (_, st) => st | inl _ => None end) = Some (Some true)
  /\ option_map brand_preserved
       (match run (u "Flacon propose par le vapoteur discount") with
        | inr (_, st) => st | inl _ => None end) = Some (Some false).
Proof. split; vm_compute; reflexivity. Qed.

(** ** A failed generation *)

(** C3 fails on the code: the generation call fails
    on a meta description that carries the price label and ends in
    whitespace. The step returns the label and the trimmed remainder, which
    is not the original content, and the item processor records the field as
    rewritten, with empty stats. *)
Lemma failed_generation_trims_the_meta_description :
  let content := u "Prix : 12,90 € | E-liquide fruits rouges 10 ml " in
  let item := VDict [(u "id", VInt 424); (u "meta_description", VStr content)] in
  interp (scripted no_shop)
    (rewrite_content_with_seo content (u "Meta description") (u "product 424") (u "product")
       [] a_rewriter) [inl (ExternalError (u "timeout"))]
  = ((inr (u "Prix : 12,90 € | E-liquide fruits rouges 10 ml", None), a_rewriter), [])
  /\ u "Prix : 12,90 € | E-liquide fruits rouges 10 ml" <> content
  /\ (exists r,
         fst (fst (interp (scripted no_shop)
                     (process_item item (u "product") product_fields a_rewriter)
                     [inl (ExternalError (u "timeout"))])) = inr r
         /\ has_been_rewritten r = true
         /\ List.map (fun d => (field d, rewritten_content d, stats d)) (rewrites r)
            = [(u "meta_description", u "Prix : 12,90 € | E-liquide fruits rouges 10 ml", None)]).
Proof.
  intros content item. split; [vm_compute; reflexivity |].
  split; [vm_compute; discriminate |].
  eexists. split; [vm_compute; reflexivity |].
  split; reflexivity.
Qed.

(** Without a price label a failed generation does return the content
    as it came. *)
Lemma failed_generation_keeps_other_content {RT : PyRuntime} {W} (h : handler W) (w : W)
    content field_type item_name item_type hs self e :
  long_enough_to_rewrite content = true ->
  fst (split_price field_type content) = [] ->
  fst (h _ (ChatCompletion (request_of content field_type item_name item_type)) w) = inl e ->
  fst (fst (interp h (rewrite_content_with_seo content field_type item_name item_type hs self) w))
  = inr (content, None).
Proof.
  intros Hg Hprice Hanswer. rewrite (rewrite_failed h w) with (e := e) by assumption.
  unfold split_price in *.
  destruct (str_eqb field_type (u "Meta description")); [| reflexivity].
  destruct (Re.match_prefix price_pattern content) as [p |] eqn:Hm; [| reflexivity].
  simpl in Hprice. subst p. apply price_prefix_nonempty in Hm. congruence.
Qed.

(** ** The HTML splitter *)

Section SplitterFacts.
Context {RT : PyRuntime} {BS : HtmlParser}.

Lemma parse_structure_original (html text : str) (structure : dict value) :
  parse_structure html = inr (text, structure) ->
  dict_get (u "original_html") structure = Some (VStr html).
Proof.
  unfold parse_structure, ebind.
  repeat match goal with
         | |- context [match ?x with inl _ => _ | inr _ => _ end] => destruct x; [discriminate |]
         end.
  intros [= <- <-]. reflexivity.
Qed.

End SplitterFacts.

(** C2, as the code has it: the splitter returns for every string. For a
    non-empty input the structure holds the input under [original_html];
    when anything in the parsing raises, the result is the input as plain
    text and a structure with [original_html] alone. For the empty input the
    result is the empty text and the empty structure, which has no
    [original_html]. *)
Theorem original_html_is_kept {BS : HtmlParser} :
  forall html : str,
    (html <> [] ->
     dict_get (u "original_html") (snd (extract_and_preserve_html html)) = Some (VStr html))
    /\ (forall e, html <> [] -> parse_structure html = inl e ->
        extract_and_preserve_html html = (html, [(u "original_html", VStr html)]))
    /\ (html = [] -> extract_and_preserve_html html = ([], [])).
Proof.
  intros html. unfold extract_and_preserve_html. split; [| split].
  - intros Hne. rewrite (truthy_nonempty html Hne). cbn [negb].
    destruct (parse_structure html) as [e | [text structure]] eqn:Hparse.
    + reflexivity.
    + apply (parse_structure_original html text structure Hparse).
  - intros e Hne Hparse. rewrite (truthy_nonempty html Hne), Hparse. reflexivity.
  - intros ->. reflexivity.
Qed.

Lemma original_html_is_kept_witness :
  dict_get (u "original_html")
    (snd (extract_and_preserve_html (BS := plain_text_parser) (u "<p>Flacon <b>10 ml</p>")))
  = Some (VStr (u "<p>Flacon <b>10 ml</p>"))
  /\ extract_and_preserve_html (BS := failing_parser) (u "<p>Flacon <b>10 ml</p>")
     = (u "<p>Flacon <b>10 ml</p>", [(u "original_html", VStr (u "<p>Flacon <b>10 ml</p>"))])
  /\ extract_and_preserve_html (BS := plain_text_parser) [] = ([], []).
Proof.
  split; [| split].
  - apply (@original_html_is_kept plain_text_parser (u "<p>Flacon <b>10 ml</p>")).
    vm_compute. discriminate.
  - apply (proj1 (proj2 (@original_html_is_kept failing_parser (u "<p>Flacon <b>10 ml</p>")))
             (ExternalError (u "parse error"))).
    + vm_compute. discriminate.
    + reflexivity.
  - apply (@original_html_is_kept plain_text_parser []). reflexivity.
Defined.

(** C2 as stated fails on the empty string: the structure returned for it
    is empty, so that reading its [original_html] finds no such key. *)
Lemma empty_input_has_no_original_html :
  extract_and_preserve_html (BS := plain_text_parser) [] = ([], [])
  /\ dict_get (u "original_html")
       (snd (extract_and_preserve_html (BS := plain_text_parser) [])) = None
  /\ dict_get (u "original_html")
       (snd (extract_and_preserve_html (BS := plain_text_parser) [])) <> Some (VStr []).
Proof. split; [reflexivity |]. split; [reflexivity | discriminate]. Qed.

(** ** The item processor *)

Lemma chat_requests_mbind {W A B} (h : handler W) (m : M A) (f : A -> M B) self (w : W) :
  chat_requests h (bind m f self) w =
  chat_requests h (m self) w ++
  match interp h (m self) w with
  | ((inl e, self'), w') => []
  | ((inr a, self'), w') => chat_requests h (f a self') w'
  end.
Proof.
  unfold bind. rewrite chat_requests_bind.
  destruct (interp h (m self) w) as [[[e | a] self'] w']; reflexivity.
Qed.

Lemma always_mbind {A B} (m : M A) (f : A -> M B) self (Q : (exn + B) * Rewriter -> Prop) :
  always (m self) (fun rs =>
    match rs with
    | (inl e, self') => Q (inl e, self')
    | (inr a, self') => always (f a self') Q
    end) ->
  always (bind m f self) Q.
Proof.
  intros H. unfold bind. apply always_bind.
  eapply always_mono; [| exact H]. intros [[e | a] self']; auto.
Qed.

Lemma for_fold_returned {A S} (Inv : S -> Prop) (l : list A) (body : S -> A -> M S) :
  (forall s x self, Inv s -> always (body s x self) (fun rs => returned rs Inv)) ->
  forall s self, Inv s -> always (for_fold l s body self) (fun rs => returned rs Inv).
Proof.
  intros Hbody. induction l as [| x l IH]; intros s self Hs; simpl.
  - exact Hs.
  - apply always_mbind. eapply always_mono; [| apply (Hbody s x self Hs)].
    intros [[e | s'] self'] Hs'; unfold returned in *; simpl in *.
    + exact I.
    + apply IH, Hs'.
Qed.

Section ProcessorFacts.
Context {RT : PyRuntime} {BS : HtmlParser}.
Variable rw : str -> str -> str -> str -> dict value -> M (str * option Stats).

(** One turn of the loop leaves the result alone or records a rewrite of
    the field of the turn, which is then not a skipped field. *)
Lemma process_field_returned item item_type item_name result field label self :
  always (process_field rw item item_type item_name result (field, label) self)
    (fun rs => returned rs (fun r =>
       r = result
       \/ (str_in field (fields_to_skip item_type) = false
           /\ exists original rewritten st,
                r = record_rewrite result field label original rewritten st))).
Proof.
  unfold process_field.
  destruct (str_in field (fields_to_skip item_type)) eqn:Hskip; [left; reflexivity |].
  destruct (dict_get field item) as [field_data |]; [| left; reflexivity].
  apply always_mbind.
  destruct (extract_content field_data) as [e | original]; simpl; [exact I |].
  apply always_mbind.
  destruct (truthy original); simpl; [| left; reflexivity].
  destruct (py_strip original) as [e | stripped] eqn:Hstrip; simpl; [exact I |].
  destruct (5 <? len stripped)%Z; [| left; reflexivity].
  destruct original; try exact I.
  destruct (extract_and_preserve_html s) as [text_content html_structure].
  apply always_mbind. apply always_all.
  intros [[e | [rewritten st]] self']; [exact I |].
  destruct (negb (str_eqb rewritten s)).
  - right. split; [reflexivity |]. eauto.
  - left. reflexivity.
Qed.

Lemma process_item_returned (Inv : ItemResult -> Prop) item item_type fields self :
  (forall r, rewrites r = [] -> has_been_rewritten r = false ->
             fields_rewritten (seo_stats r) = 0%Z -> Inv r) ->
  (forall r field label original rewritten st,
      Inv r -> str_in field (fields_to_skip item_type) = false ->
      Inv (record_rewrite r field label original rewritten st)) ->
  always (process_item_with rw item item_type fields self) (fun rs => returned rs Inv).
Proof.
  intros Hinit Hstep. unfold process_item_with.
  destruct item; try exact I.
  apply always_mbind.
  destruct (item_name_of d item_type) as [e | item_name]; simpl; [exact I |].
  apply for_fold_returned.
  - intros r [field label] self' Hr.
    eapply always_mono; [| apply process_field_returned].
    intros [[e | r'] self'']; unfold returned; simpl; [auto |].
    intros [-> | (Hskip & original & rewritten & st & ->)]; auto.
  - apply Hinit; reflexivity.
Qed.

Lemma record_rewrite_consistent r field label original rewritten st :
  consistent r -> consistent (record_rewrite r field label original rewritten st).
Proof.
  unfold consistent, record_rewrite, len. simpl. intros [Hcount Hflag]. split.
  - rewrite Hcount, length_app. simpl. lia.
  - split; [| reflexivity]. intros _. destruct (rewrites r); discriminate.
Qed.

End ProcessorFacts.

(** C10: whenever [process_item] returns, the counter [fields_rewritten]
    of its result is the length of the list of rewrites, and
    [has_been_rewritten] is true exactly when that list is not empty. *)
Theorem fields_rewritten_counts_rewrites {RT : PyRuntime} {BS : HtmlParser} :
  forall W (h : handler W) w item item_type fields self,
    match fst (fst (interp h (process_item item item_type fields self) w)) with
    | inr r =>
        fields_rewritten (seo_stats r) = len (rewrites r)
        /\ (has_been_rewritten r = true <-> rewrites r <> [])
    | inl _ => True
    end.
Proof.
  intros W h w item item_type fields self.
  apply (always_interp h _ (fun rs => returned rs consistent)).
  apply process_item_returned.
  - intros r Hrw Hflag Hcount. unfold consistent. rewrite Hrw, Hflag, Hcount.
    split; [reflexivity |]. split; [discriminate | congruence].
  - intros r field label original rewritten st Hr _.
    apply record_rewrite_consistent, Hr.
Qed.

(** ** The protected name of a product *)

Section NameFacts.
Context {RT : PyRuntime} {BS : HtmlParser}.

Lemma long_enough_inv (s : str) :
  long_enough_to_rewrite s = true ->
  truthy (VStr s) = true /\ (10 <= len (strip s))%Z.
Proof.
  unfold long_enough_to_rewrite. intros H.
  apply negb_true_iff, orb_false_iff in H as [Ht Hl].
  apply negb_false_iff in Ht. apply Z.ltb_ge in Hl. auto.
Qed.

Lemma extract_content_text (s : str) :
  truthy (VStr s) = true -> extract_content (VStr s) = inr (VStr s).
Proof. intros Ht. unfold extract_content. rewrite Ht. reflexivity. Qed.

(** The turn of the loop for a field that is not skipped, holds a text of
    more than five trimmed characters and is long enough for the rewrite
    step: the step is run on the text. *)
Lemma process_field_runs {W} (h : handler W) (w : W) d item_type item_name result field label
    (s : str) self :
  str_in field (fields_to_skip item_type) = false ->
  dict_get field d = Some (VStr s) ->
  long_enough_to_rewrite s = true ->
  interp h (process_field rewrite_content_with_seo d item_type item_name result
              (field, label) self) w
  = (let '(hs_text, hs) := extract_and_preserve_html s in
     match interp h (rewrite_content_with_seo s label item_name item_type hs self) w with
     | ((inl e, self'), w') => ((inl e, self'), w')
     | ((inr (rewritten, st), self'), w') =>
         ((inr (if negb (str_eqb rewritten s)
                then record_rewrite result field label s rewritten st
                else result), self'), w')
     end)
  /\ chat_requests h (process_field rewrite_content_with_seo d item_type item_name result
                        (field, label) self) w
     = [request_of s label item_name item_type].
Proof.
  intros Hskip Hget Hg. destruct (long_enough_inv s Hg) as [Ht Hlen].
  unfold process_field. rewrite Hskip, Hget, (extract_content_text s Ht).
  assert (Hgate : (5 <? len (strip s))%Z = true) by (apply Z.ltb_lt; lia).
  split.
  - rewrite interp_mbind. cbn [of_result ret interp].
    rewrite interp_mbind. rewrite Ht. cbn [py_strip of_result].
    rewrite interp_mbind. cbn [ret interp]. rewrite Hgate.
    destruct (extract_and_preserve_html s) as [hs_text hs].
    rewrite interp_mbind.
    destruct (interp h (rewrite_content_with_seo s label item_name item_type hs self) w)
      as [[[e | [rewritten st]] self'] w']; [reflexivity |].
    destruct (negb (str_eqb rewritten s)); reflexivity.
  - rewrite chat_requests_mbind. cbn [of_result ret interp chat_requests app].
    rewrite chat_requests_mbind. rewrite Ht. cbn [py_strip of_result].
    rewrite chat_requests_mbind, interp_mbind. cbn [ret interp chat_requests app].
    rewrite Hgate.
    destruct (extract_and_preserve_html s) as [hs_text hs].
    rewrite chat_requests_mbind, rewrite_requests, Hg.
    destruct (interp h (rewrite_content_with_seo s label item_name item_type hs self) w)
      as [[[e | [rewritten st]] self'] w']; [reflexivity |].
    destruct (negb (str_eqb rewritten s)); reflexivity.
Qed.

Lemma skip_list_of_product : fields_to_skip (u "product") = [u "name"].
Proof. reflexivity. Qed.

Lemma skip_list_of_others (item_type : str) :
  item_type = u "category" \/ item_type = u "manufacturer" ->
  fields_to_skip item_type = [].
Proof. intros [-> | ->]; reflexivity. Qed.

End NameFacts.

(** C8: for a product, no rewrite that [process_item] returns is of the
    field [name], whatever the item, the field mapping and the answers of
    the generation call. For a category or a manufacturer the skip list is
    empty and the name is processed like any field: when the mapping starts
    with [name] and the item's name is a text long enough for the rewrite
    step, that text is the first thing sent for rewriting; and with [name]
    as the only field, an answer that differs from the name is recorded as a
    rewrite of [name]. *)
Theorem product_name_is_never_rewritten {RT : PyRuntime} {BS : HtmlParser} :
  (forall W (h : handler W) w item fields self,
      match fst (fst (interp h (process_item item (u "product") fields self) w)) with
      | inr r => Forall (fun data => field data <> u "name") (rewrites r)
      | inl _ => True
      end)
  /\
  (forall item_type,
      item_type = u "category" \/ item_type = u "manufacturer" ->
      fields_to_skip item_type = []
      /\ forall d (s : str) item_name label self W (h : handler W) w,
          dict_get (u "name") d = Some (VStr s) ->
          long_enough_to_rewrite s = true ->
          item_name_of d item_type = inr item_name ->
          (forall rest, exists more,
              chat_requests h (process_item (VDict d) item_type ((u "name", label) :: rest) self) w
              = request_of s label item_name item_type :: more)
          /\ (forall message,
                 fst (h _ (ChatCompletion (request_of s label item_name item_type)) w)
                 = inr (VStr message) ->
                 let rewritten := normalize label (fst (split_price label s)) (strip message) in
                 rewritten <> s ->
                 exists r,
                   fst (fst (interp h (process_item (VDict d) item_type [(u "name", label)] self) w))
                   = inr r
                   /\ has_been_rewritten r = true
                   /\ List.map (fun data => (field data, rewritten_content data)) (rewrites r)
                      = [(u "name", rewritten)])).
Proof.
  split.
  - intros W h w item fields self.
    apply (always_interp h _ (fun rs =>
             returned rs (fun r => Forall (fun data => field data <> u "name") (rewrites r)))).
    apply process_item_returned.
    + intros r Hrw _ _. rewrite Hrw. constructor.
    + intros r fld label original rewritten st Hr Hskip.
      unfold record_rewrite. cbn [rewrites]. apply Forall_app. split; [exact Hr |].
      constructor; [| constructor]. cbn [field].
      rewrite skip_list_of_product in Hskip. unfold str_in in Hskip. simpl in Hskip.
      apply orb_false_iff in Hskip as [Hne _]. apply str_eqb_neq, Hne.
  - intros item_type Hty. pose proof (skip_list_of_others item_type Hty) as Hskip.
    split; [exact Hskip |].
    intros d s item_name label self W h w Hname Hg Hitem.
    assert (Hin : str_in (u "name") (fields_to_skip item_type) = false)
      by (rewrite Hskip; reflexivity).
    split.
    + intros rest. unfold process_item, process_item_with.
      rewrite chat_requests_mbind. rewrite Hitem. cbn [of_result ret interp chat_requests app].
      cbn [for_fold]. rewrite chat_requests_mbind.
      match goal with
      | |- context [process_field _ d item_type item_name ?r _ self] =>
          destruct (process_field_runs h w d item_type item_name r (u "name") label s self
                      Hin Hname Hg) as [_ ->]
      end.
      eexists. reflexivity.
    + intros message Hanswer rewritten Hdiff.
      unfold process_item, process_item_with.
      rewrite interp_mbind. rewrite Hitem. cbn [of_result ret interp].
      cbn [for_fold]. rewrite interp_mbind.
      match goal with
      | |- context [process_field _ d item_type item_name ?r _ self] =>
          destruct (process_field_runs h w d item_type item_name r (u "name") label s self
                      Hin Hname Hg) as [-> _]
      end.
      destruct (extract_and_preserve_html s) as [hs_text hs].
      pose proof (rewrite_answered h w s label item_name item_type hs self message Hg Hanswer)
        as Hrun.
      destruct (interp h (rewrite_content_with_seo s label item_name item_type hs self) w)
        as [[result self'] w'].
      cbn [fst] in Hrun. subst result.
      destruct (split_price label s) as [p rest] eqn:Hprice.
      cbn [fst] in rewritten. fold rewritten.
      apply str_eqb_neq in Hdiff. rewrite Hdiff. cbn [negb ret interp fst].
      eexists. split; [reflexivity |]. split; reflexivity.
Qed.

Lemma product_name_is_never_rewritten_witness :
  let d := [(u "id", VInt 3); (u "name", VStr (u "E-liquides gourmands"))] in
  let answers := [inr (VStr (u "E-liquides"))] in
  (exists more,
      chat_requests (scripted no_shop)
        (process_item (VDict d) (u "category") category_fields a_rewriter) answers
      = request_of (u "E-liquides gourmands") (u "Nom de la catégorie")
          (u "E-liquides gourmands") (u "category") :: more)
  /\ (exists r,
         fst (fst (interp (scripted no_shop)
                     (process_item (VDict d) (u "category") [(u "name", u "Nom de la catégorie")]
                        a_rewriter) answers)) = inr r
         /\ has_been_rewritten r = true
         /\ List.map (fun data => (field data, rewritten_content data)) (rewrites r)
            = [(u "name", u "E-liquides")]).
Proof.
  intros d answers.
  destruct (@product_name_is_never_rewritten ascii_runtime plain_text_parser) as [_ Hother].
  destruct (Hother (u "category") (or_introl eq_refl)) as [_ Hname].
  destruct (Hname d (u "E-liquides gourmands") (u "E-liquides gourmands")
              (u "Nom de la catégorie") a_rewriter _ (scripted no_shop) answers
              eq_refl eq_refl eq_refl) as [Hsent Hrecorded].
  split.
  - apply (Hsent (tl category_fields)).
  - apply (Hrecorded (u "E-liquides") eq_refl). vm_compute. discriminate.
Defined.

(** ** The batch driver *)

Section DriverFacts.
Context {RT : PyRuntime} {BS : HtmlParser}.
Variable P : Rewriter -> Prop.

Lemma preserves_rewrite content field_type item_name item_type hs :
  preserves P (rewrite_content_with_seo content field_type item_name item_type hs).
Proof. unfold rewrite_content_with_seo. preserve. Qed.

Lemma preserves_process_field item item_type item_name result entry :
  preserves P (process_field rewrite_content_with_seo item item_type item_name result entry).
Proof.
  unfold process_field. destruct entry as [field label]. preserve.
  apply preserves_rewrite.
Qed.

Lemma preserves_process_item item item_type fields :
  preserves P (process_item item item_type fields).
Proof.
  unfold process_item, process_item_with. preserve.
  apply preserves_process_field.
Qed.

Lemma preserves_requests_get url params : preserves P (requests_get url params).
Proof. unfold requests_get. preserve. Qed.

Lemma preserves_json_get response key default : preserves P (json_get response key default).
Proof. unfold json_get. preserve. Qed.

Lemma preserves_get_resource plural singular message limit :
  preserves P (get_resource plural singular message limit).
Proof.
  unfold get_resource. preserve;
    first [apply preserves_requests_get | apply preserves_json_get].
Qed.

Lemma preserves_fetch_by_ids plural singular message ids cb :
  preserves P (fetch_by_ids plural singular message ids cb).
Proof.
  unfold fetch_by_ids. apply preserves_for_fold. intros items [i item_id]. preserve;
    first [apply preserves_requests_get | apply preserves_json_get].
Qed.

End DriverFacts.

Section InvariantFacts.
Context {RT : PyRuntime} {BS : HtmlParser}.

Lemma count_rewritten_app (l : list ItemResult) (r : ItemResult) :
  count_rewritten (l ++ [r])
  = (count_rewritten l + if has_been_rewritten r then 1 else 0)%Z.
Proof.
  unfold count_rewritten, len. rewrite List.filter_app, length_app. simpl.
  destruct (has_been_rewritten r); simpl; lia.
Qed.

(** Setting one of the totals of the metadata touches neither the
    counter nor the collections. *)
Lemma preserves_set_total (f : Metadata -> Metadata) :
  (forall m, items_rewritten (f m) = items_rewritten m) ->
  preserves keeps_count (modify_results (set_metadata f)).
Proof.
  intros Hf self Hinv. unfold keeps_count, items_rewritten_invariant in *. simpl.
  rewrite Hf. exact Hinv.
Qed.

(** Appending a result and counting it when it is marked keeps the
    invariant, and so does the processing that comes before. *)
Lemma preserves_process_and_record c item item_type fields :
  preserves keeps_count (process_and_record c item item_type fields).
Proof.
  intros self Hinv. unfold process_and_record. apply always_mbind.
  eapply always_mono; [| apply (preserves_process_item keeps_count), Hinv].
  intros [[e | result] self'] Hinv'; simpl in Hinv'; [exact Hinv' |].
  unfold keeps_count, items_rewritten_invariant in *.
  destruct c; destruct (has_been_rewritten result) eqn:Hflag; simpl;
    rewrite ?count_rewritten_app, ?Hflag; lia.
Qed.

Lemma preserves_process_products items cb message :
  preserves keeps_count (process_products items cb message).
Proof.
  unfold process_products. apply preserves_for_each. intros [i product]. preserve.
  apply preserves_process_and_record.
Qed.

Lemma preserves_process_categories items :
  preserves keeps_count (process_categories items).
Proof.
  unfold process_categories. apply preserves_for_each. intros category.
  apply preserves_process_and_record.
Qed.

Lemma preserves_process_manufacturers items :
  preserves keeps_count (process_manufacturers items).
Proof.
  unfold process_manufacturers. apply preserves_for_each. intros manufacturer.
  apply preserves_process_and_record.
Qed.

Ltac preserve_driver :=
  preserve;
  first
    [ apply preserves_get_resource
    | apply preserves_fetch_by_ids
    | apply preserves_process_products
    | apply preserves_process_categories
    | apply preserves_process_manufacturers
    | apply preserves_set_total; intros m; reflexivity ].

Lemma preserves_run_with_params element_type nb_items cb :
  preserves keeps_count (run_with_params element_type nb_items cb).
Proof. unfold run_with_params, get_products, get_categories, get_manufacturers. preserve_driver. Qed.

Lemma preserves_run_with_specific_ids element_type ids cb :
  preserves keeps_count (run_with_specific_ids element_type ids cb).
Proof. unfold run_with_specific_ids. preserve_driver. Qed.

(** A postcondition that every exception meets holds after a bind as
    soon as the continuation establishes it. *)
Lemma always_mbind_returned {A B} (m : M A) (f : A -> M B) self
    (Q : (exn + B) * Rewriter -> Prop) :
  (forall e s, Q (inl e, s)) ->
  (forall a s, always (f a s) Q) ->
  always (bind m f self) Q.
Proof.
  intros Hexn Hf. apply always_mbind. apply always_all.
  intros [[e | a] s]; auto.
Qed.

Lemma run_with_params_returns element_type nb_items cb self :
  always (run_with_params element_type nb_items cb self) returns_own_results.
Proof.
  unfold run_with_params.
  do 3 (apply always_mbind_returned; [intros ? ?; exact I | intros ? ?]).
  reflexivity.
Qed.

Lemma run_with_specific_ids_returns element_type ids cb self :
  always (run_with_specific_ids element_type ids cb self) returns_own_results.
Proof.
  unfold run_with_specific_ids.
  apply always_mbind_returned; [intros ? ?; exact I | intros ? ?].
  reflexivity.
Qed.

End InvariantFacts.

Lemma init_keeps_count (prestashop_url prestashop_key now : str) :
  keeps_count (init prestashop_url prestashop_key now).
Proof. reflexivity. Qed.

(** C4: after a run of either driver on a freshly built rewriter, in any
    mode, for any identifiers and whatever the shop and the generation call
    answer, [items_rewritten] is the number of item results marked as
    rewritten in the three collections together. This holds of the results
    held by the rewriter when the run ends, also when it ends in an
    exception, and of the results the run returns. *)
Theorem items_rewritten_counts_rewritten_items {RT : PyRuntime} {BS : HtmlParser} :
  forall W (h : handler W) w prestashop_url prestashop_key now element_type nb_items
         specific_ids progress_callback,
    let fresh := init prestashop_url prestashop_key now in
    let by_count := fst (interp h (run_with_params element_type nb_items progress_callback fresh) w) in
    let by_ids :=
      fst (interp h (run_with_specific_ids element_type specific_ids progress_callback fresh) w) in
    (items_rewritten_invariant (results (snd by_count))
     /\ match fst by_count with
        | inr r => r = results (snd by_count)
        | inl _ => True
        end)
    /\ (items_rewritten_invariant (results (snd by_ids))
        /\ match fst by_ids with
           | inr r => r = results (snd by_ids)
           | inl _ => True
           end).
Proof.
  intros W h w prestashop_url prestashop_key now element_type nb_items specific_ids
    progress_callback fresh by_count by_ids.
  pose proof (init_keeps_count prestashop_url prestashop_key now) as Hfresh.
  split.
  - apply (always_interp h _ (fun rs => keeps_count (snd rs) /\ returns_own_results rs)).
    apply always_and.
    + apply preserves_run_with_params, Hfresh.
    + apply run_with_params_returns.
  - apply (always_interp h _ (fun rs => keeps_count (snd rs) /\ returns_own_results rs)).
    apply always_and.
    + apply preserves_run_with_specific_ids, Hfresh.
    + apply run_with_specific_ids_returns.
Qed.

(** ** Splitting and trimming *)

Section StringFacts.

Lemma startswith_single (c : char) (s : str) :
  startswith [c] s = match s with x :: _ => char_eqb c x | [] => false end.
Proof. destruct s as [| x s]; simpl; [reflexivity | apply andb_true_r]. Qed.

Lemma contains_single (c : char) (s : str) : contains [c] s = true <-> In c s.
Proof.
  induction s as [| x s IH]; simpl.
  - split; [discriminate | tauto].
  - rewrite andb_true_r, orb_true_iff, IH. unfold char_eqb. rewrite N.eqb_eq.
    split; intros [H | H]; auto.
Qed.

Lemma contains_single_false (c : char) (s : str) : contains [c] s = false <-> ~ In c s.
Proof.
  rewrite <- contains_single. destruct (contains [c] s); split; congruence.
Qed.

Lemma split_single_cons (c x : char) (s : str) :
  split [c] (x :: s) =
  if char_eqb c x then [] :: split [c] s
  else match split [c] s with h :: t => (x :: h) :: t | [] => [[x]] end.
Proof. unfold split. simpl. rewrite andb_true_r. reflexivity. Qed.

Lemma split_single_nonempty (c : char) (s : str) : split [c] s <> [].
Proof.
  induction s as [| x s IH]; [discriminate |].
  rewrite split_single_cons. destruct (char_eqb c x); [discriminate |].
  destruct (split [c] s); discriminate.
Qed.

Lemma split_single_notin (c : char) (a : str) : ~ In c a -> split [c] a = [a].
Proof.
  induction a as [| x a IH]; intros Hnotin; [reflexivity |].
  rewrite split_single_cons.
  destruct (char_eqb c x) eqn:Hcx.
  - apply N.eqb_eq in Hcx. subst x. exfalso. apply Hnotin. left. reflexivity.
  - rewrite IH; [reflexivity |]. intros Hin. apply Hnotin. right. exact Hin.
Qed.

Lemma split_single_app (c : char) (a b : str) :
  ~ In c a -> split [c] (a ++ c :: b) = a :: split [c] b.
Proof.
  induction a as [| x a IH]; intros Hnotin; simpl app.
  - rewrite split_single_cons. unfold char_eqb. rewrite N.eqb_refl. reflexivity.
  - rewrite split_single_cons.
    destruct (char_eqb c x) eqn:Hcx.
    + apply N.eqb_eq in Hcx. subst x. exfalso. apply Hnotin. left. reflexivity.
    + rewrite IH; [reflexivity |]. intros Hin. apply Hnotin. right. exact Hin.
Qed.

Lemma split_single_join (c : char) (s : str) : join [c] (split [c] s) = s.
Proof.
  induction s as [| x s IH]; [reflexivity |].
  rewrite split_single_cons.
  destruct (char_eqb c x) eqn:Hcx.
  - apply N.eqb_eq in Hcx. subst x.
    pose proof (split_single_nonempty c s) as Hne.
    destruct (split [c] s) as [| h t] eqn:Hs; [congruence |].
    simpl. simpl in IH. rewrite IH. reflexivity.
  - pose proof (split_single_nonempty c s) as Hne.
    destruct (split [c] s) as [| h t] eqn:Hs; [congruence |].
    destruct t as [| h' t]; simpl in *; rewrite <- IH; reflexivity.
Qed.

Lemma split_single_pieces (c : char) (s : str) :
  Forall (fun piece => ~ In c piece) (split [c] s).
Proof.
  induction s as [| x s IH].
  - constructor; [tauto | constructor].
  - rewrite split_single_cons.
    destruct (char_eqb c x) eqn:Hcx.
    + constructor; [tauto | exact IH].
    + destruct (split [c] s) as [| h t]; [repeat constructor; simpl; intros [-> | []];
        unfold char_eqb in Hcx; rewrite N.eqb_refl in Hcx; discriminate |].
      inversion IH as [| ? ? Hh Ht]; subst. constructor; [| exact Ht].
      simpl. intros [-> | Hin]; [| tauto].
      unfold char_eqb in Hcx. rewrite N.eqb_refl in Hcx. discriminate.
Qed.

(** A string splits in two at [c] exactly when it is two pieces free of
    [c] around one [c]. *)
Lemma split_single_two (c : char) (s a b : str) :
  split [c] s = [a; b] <-> s = a ++ c :: b /\ ~ In c a /\ ~ In c b.
Proof.
  split.
  - intros Hs. pose proof (split_single_join c s) as Hj.
    pose proof (split_single_pieces c s) as Hp. rewrite Hs in Hj, Hp.
    apply Forall_cons_iff in Hp as [Ha Hp]. apply Forall_cons_iff in Hp as [Hb _].
    simpl in Hj. auto.
  - intros (-> & Ha & Hb). rewrite split_single_app by exact Ha.
    rewrite split_single_notin by exact Hb. reflexivity.
Qed.

Lemma lstrip_all_of (p : char -> bool) (w s : str) :
  all_of p w -> lstrip_by p (w ++ s) = lstrip_by p s.
Proof.
  induction 1 as [| c w Hc Hw IH]; [reflexivity |]. simpl. rewrite Hc. exact IH.
Qed.

Lemma lstrip_solid (p : char -> bool) (c : char) (s : str) :
  p c = false -> lstrip_by p (c :: s) = c :: s.
Proof. intros Hc. simpl. rewrite Hc. reflexivity. Qed.

Lemma all_of_rev (p : char -> bool) (w : str) : all_of p w -> all_of p (rev w).
Proof.
  unfold all_of. rewrite !List.Forall_forall. intros H c Hc. apply H, in_rev, Hc.
Qed.

(** Trimming takes the characters of the class off both sides of a text
    that starts and ends in characters outside it. *)
Lemma strip_padded (p : char -> bool) (w w' core : str) (first last : char) (middle : str) :
  all_of p w -> all_of p w' ->
  core = first :: middle -> rev core = last :: rev (removelast core) ->
  p first = false -> p last = false ->
  strip_by p (w ++ core ++ w') = core.
Proof.
  intros Hw Hw' Hfirst Hlast Hf Hl. unfold strip_by, rstrip_by.
  rewrite lstrip_all_of by exact Hw.
  rewrite Hfirst. simpl app. rewrite lstrip_solid by exact Hf.
  rewrite <- Hfirst. change (first :: middle ++ w') with ((first :: middle) ++ w').
  rewrite <- Hfirst. rewrite rev_app_distr.
  rewrite lstrip_all_of by (apply all_of_rev, Hw').
  rewrite Hlast. rewrite lstrip_solid by exact Hl.
  rewrite <- Hlast. apply rev_involutive.
Qed.

Lemma replace_space (s : str) :
  replace (u " ") (u "") s = List.filter (fun c => negb (char_eqb 32%N c)) s.
Proof.
  change (u " ") with [32%N]. change (u "") with (@nil char). unfold replace.
  induction s as [| c s IH]; [reflexivity |].
  cbn [replace_from startswith List.filter length Nat.sub app].
  rewrite andb_true_r. destruct (char_eqb 32%N c); cbn [negb app]; rewrite IH; reflexivity.
Qed.

Lemma filter_spaces (f : char -> bool) (w : str) : spaces w -> spaces (List.filter f w).
Proof.
  unfold spaces, all_of. rewrite !List.Forall_forall. intros H c Hc.
  apply List.filter_In in Hc as [Hc _]. apply H, Hc.
Qed.

Lemma space_is_no_token_char (w : str) (c : char) :
  spaces w -> is_int_space c = false -> ~ In c w.
Proof.
  unfold spaces, all_of. rewrite List.Forall_forall. intros H Hc Hin.
  apply H in Hin. congruence.
Qed.

End StringFacts.

(** ** The identifier input *)

Section ParseFacts.
Context {RT : PyRuntime}.

Lemma py_range_spec (lo hi x : Z) : In x (py_range lo (hi + 1)) <-> (lo <= x <= hi)%Z.
Proof.
  unfold py_range. rewrite in_map_iff. split.
  - intros (i & <- & Hi). apply in_seq in Hi. lia.
  - intros Hx. exists (Z.to_nat (x - lo)). split; [lia |]. apply in_seq. lia.
Qed.

Lemma hyphen_literal : u "-" = [45%N].
Proof. reflexivity. Qed.

(** What the loop body makes of a token: the identifiers of a well-formed
    one, a warning that names a malformed one. *)
Lemma parse_part_found (part : str) (found : list Z) :
  parse_part part = inr found -> forall x, In x found <-> token_ids part x.
Proof.
  unfold parse_part, token_ids, token_single, token_range. rewrite hyphen_literal.
  destruct (contains [45%N] part) eqn:Hhyphen.
  - apply contains_single in Hhyphen.
    destruct (split [45%N] part) as [| start [| stop [| ? ?]]] eqn:Hsplit; try discriminate.
    destruct (py_int start) as [lo |] eqn:Hlo; [| discriminate].
    destruct (py_int stop) as [hi |] eqn:Hhi; [| discriminate].
    intros [= <-] x. rewrite py_range_spec.
    apply split_single_two in Hsplit as (Hpart & Hstart & Hstop).
    split.
    + intros Hx. right. exists lo, hi. split; [| exact Hx].
      exists start, stop. auto.
    + intros [[Hno _] | (lo' & hi' & (start' & stop' & Hpart' & Hs1 & Hs2 & Hlo' & Hhi') & Hx)];
        [tauto |].
      assert (Hsame : split [45%N] part = [start'; stop'])
        by (apply split_single_two; auto).
      pose proof (proj2 (split_single_two _ _ _ _) (conj Hpart (conj Hstart Hstop))) as Hs.
      assert (Heq : [start; stop] = [start'; stop'])
        by (exact (eq_trans (eq_sym Hs) Hsame)).
      injection Heq as <- <-. congruence.
  - apply contains_single_false in Hhyphen.
    destruct (py_int part) as [n |] eqn:Hn; [| discriminate].
    intros [= <-] x. simpl. split.
    + intros [<- | []]. left. auto.
    + intros [[_ Hx] | (lo & hi & (start & stop & -> & _) & _)].
      * left. congruence.
      * exfalso. apply Hhyphen, in_or_app. right. left. reflexivity.
Qed.

Lemma parse_part_warning (part warning : str) :
  parse_part part = inl warning ->
  malformed part
  /\ (warning = u "Format invalide : " ++ part \/ warning = u "ID invalide : " ++ part).
Proof.
  unfold parse_part, malformed, token_single, token_range. rewrite hyphen_literal.
  destruct (contains [45%N] part) eqn:Hhyphen.
  - apply contains_single in Hhyphen. intros Hw.
    assert (Hmsg : warning = u "Format invalide : " ++ part).
    { destruct (split [45%N] part) as [| start [| stop [| ? ?]]]; try congruence.
      destruct (py_int start), (py_int stop); congruence. }
    split; [| left; exact Hmsg]. split.
    + intros n [Hno _]. tauto.
    + intros lo hi (start & stop & Hpart & Hs1 & Hs2 & Hlo & Hhi).
      assert (Hsplit : split [45%N] part = [start; stop])
        by (apply split_single_two; auto).
      destruct (split [45%N] part) as [| start0 [| stop0 [| ? ?]]]; try discriminate.
      injection Hsplit as -> ->. rewrite Hlo, Hhi in Hw. discriminate.
  - apply contains_single_false in Hhyphen.
    destruct (py_int part) as [n |] eqn:Hn; [discriminate |].
    intros [= <-]. split; [| right; reflexivity]. split.
    + intros n [_ Hint]. congruence.
    + intros lo hi (start & stop & -> & _).
      apply Hhyphen, in_or_app. right. left. reflexivity.
Qed.

Lemma parse_parts_spec (parts : list str) (ids : list Z) :
  let '(found, warnings) := parse_parts parts ids in
  (forall x, In x found <-> In x ids \/ exists part, In part parts /\ token_ids part x)
  /\ (forall part, In part parts -> malformed part ->
      In (u "Format invalide : " ++ part) warnings \/ In (u "ID invalide : " ++ part) warnings)
  /\ (forall warning, In warning warnings ->
      exists part, In part parts /\ malformed part
                   /\ (warning = u "Format invalide : " ++ part
                       \/ warning = u "ID invalide : " ++ part)).
Proof.
  revert ids. induction parts as [| part parts IH]; intros ids; simpl.
  - split; [| split].
    + intros x. split; [auto |]. intros [H | (part & [] & _)]. exact H.
    + intros part [].
    + intros warning [].
  - destruct (parse_part part) as [warning | found] eqn:Hpart.
    + specialize (IH ids). destruct (parse_parts parts ids) as [found warnings].
      destruct IH as (Hids & Hreported & Hwarned).
      destruct (parse_part_warning part warning Hpart) as [Hbad Hmsg].
      split; [| split].
      * intros x. rewrite Hids. split.
        -- intros [H | (p & Hp & Hx)]; [auto |]. right. exists p. auto.
        -- intros [H | (p & [<- | Hp] & Hx)]; [auto | | right; exists p; auto].
           exfalso. destruct Hbad as [Hsingle Hrange].
           destruct Hx as [Hx | (lo & hi & Hr & _)]; [apply (Hsingle x Hx) |
             apply (Hrange lo hi Hr)].
      * intros p [<- | Hp] Hmal.
        -- destruct Hmsg as [-> | ->]; [left | right]; left; reflexivity.
        -- destruct (Hreported p Hp Hmal); [left | right]; right; assumption.
      * intros w [<- | Hw].
        -- exists part. auto.
        -- destruct (Hwarned w Hw) as (p & Hp & Hmal & Hmsg'). exists p. auto.
    + specialize (IH (ids ++ found)).
      destruct (parse_parts parts (ids ++ found)) as [found' warnings].
      destruct IH as (Hids & Hreported & Hwarned).
      pose proof (parse_part_found part found Hpart) as Hfound.
      split; [| split].
      * intros x. rewrite Hids, in_app_iff, Hfound. split.
        -- intros [[H | H] | (p & Hp & Hx)]; [auto | right; exists part; auto |
             right; exists p; auto].
        -- intros [H | (p & [<- | Hp] & Hx)]; [auto | auto | right; exists p; auto].
      * intros p [<- | Hp] Hmal.
        -- exfalso. destruct Hmal as [Hsingle Hrange].
           destruct found as [| x found].
           ++ unfold parse_part in Hpart. rewrite hyphen_literal in Hpart.
              destruct (contains [45%N] part) eqn:Hhyphen.
              ** destruct (split [45%N] part) as [| start [| stop [| ? ?]]] eqn:Hsplit;
                   try discriminate.
                 destruct (py_int start) as [lo |] eqn:Hlo; [| discriminate].
                 destruct (py_int stop) as [hi |] eqn:Hhi; [| discriminate].
                 apply split_single_two in Hsplit as (Hp & Hs1 & Hs2).
                 apply (Hrange lo hi). exists start, stop. rewrite hyphen_literal. auto.
              ** destruct (py_int part); discriminate.
           ++ assert (Hx : token_ids part x) by (apply Hfound; left; reflexivity).
              destruct Hx as [Hx | (lo & hi & Hr & _)]; [apply (Hsingle x Hx) |
                apply (Hrange lo hi Hr)].
        -- apply Hreported; assumption.
      * intros w Hw. destruct (Hwarned w Hw) as (p & Hp & Hmal & Hmsg'). exists p. auto.
Qed.

End ParseFacts.

Section PaddedInput.
Context {RT : PyRuntime}.
Hypothesis Hdigits : ascii_digits.

Ltac read_digits :=
  repeat (cbn [int_digits];
          match goal with
          | |- context [decimal_value ?c] => rewrite (Hdigits c) by lia
          end);
  reflexivity.

Lemma int_digits_424 : int_digits 0 false (u "424") = Some 424%Z.
Proof. change (u "424") with [52; 50; 52]%N. read_digits. Qed.

Lemma int_digits_426 : int_digits 0 false (u "426") = Some 426%Z.
Proof. change (u "426") with [52; 50; 54]%N. read_digits. Qed.

Lemma int_digits_430 : int_digits 0 false (u "430") = Some 430%Z.
Proof. change (u "430") with [52; 51; 48]%N. read_digits. Qed.

Lemma py_int_424 (w w' : str) : spaces w -> spaces w' -> py_int (w ++ u "424" ++ w') = Some 424%Z.
Proof.
  intros Hw Hw'. unfold py_int.
  rewrite (strip_padded is_int_space w w' (u "424") 52%N 52%N (u "24"))
    by (assumption || reflexivity).
  exact int_digits_424.
Qed.

Lemma py_int_426 (w w' : str) : spaces w -> spaces w' -> py_int (w ++ u "426" ++ w') = Some 426%Z.
Proof.
  intros Hw Hw'. unfold py_int.
  rewrite (strip_padded is_int_space w w' (u "426") 52%N 54%N (u "26"))
    by (assumption || reflexivity).
  exact int_digits_426.
Qed.

Lemma py_int_430 (w w' : str) : spaces w -> spaces w' -> py_int (w ++ u "430" ++ w') = Some 430%Z.
Proof.
  intros Hw Hw'. unfold py_int.
  rewrite (strip_padded is_int_space w w' (u "430") 52%N 48%N (u "30"))
    by (assumption || reflexivity).
  exact int_digits_430.
Qed.

(** No character [c] that is not whitespace and not in the literals
    occurs in a padded token. *)
Ltac absent :=
  let Hin := fresh "Hin" in
  intros Hin;
  repeat (apply in_app_or in Hin as [Hin | Hin]);
  first
    [ refine (space_is_no_token_char _ _ _ _ Hin); [assumption | reflexivity]
    | vm_compute in Hin; decompose [or] Hin; discriminate || contradiction ].

Lemma parse_range_padded (a1 a2 a3 a4 : str) :
  spaces a1 -> spaces a2 -> spaces a3 -> spaces a4 ->
  parse_part (a1 ++ u "424" ++ a2 ++ u "-" ++ a3 ++ u "426" ++ a4) = inr [424; 425; 426]%Z.
Proof.
  intros H1 H2 H3 H4. unfold parse_part. rewrite hyphen_literal.
  match goal with
  | |- context [contains ?sep ?s] =>
      assert (Hhyphen : contains sep s = true);
      [| assert (Hsplit : split sep s = [a1 ++ u "424" ++ a2; a3 ++ u "426" ++ a4]) ]
  end.
  - apply contains_single. rewrite !in_app_iff. right. right. right. left. left. reflexivity.
  - apply split_single_two. split; [| split].
    + rewrite <- !app_assoc. reflexivity.
    + absent.
    + absent.
  - rewrite Hhyphen, Hsplit.
    rewrite py_int_424, py_int_426 by assumption. reflexivity.
Qed.

Lemma parse_single_padded (a1 a2 : str) :
  spaces a1 -> spaces a2 -> parse_part (a1 ++ u "430" ++ a2) = inr [430%Z].
Proof.
  intros H1 H2. unfold parse_part. rewrite hyphen_literal.
  match goal with
  | |- context [contains ?sep ?s] => assert (Hhyphen : contains sep s = false)
  end.
  - apply contains_single_false. absent.
  - rewrite Hhyphen, py_int_430 by assumption. reflexivity.
Qed.

Lemma comma_literal : u "," = [44%N].
Proof. reflexivity. Qed.

Lemma parse_padded_input (w0 w1 w2 w3 w4 w5 : str) :
  spaces w0 -> spaces w1 -> spaces w2 -> spaces w3 -> spaces w4 -> spaces w5 ->
  parse_id_input
    (w0 ++ u "424" ++ w1 ++ u "-" ++ w2 ++ u "426" ++ w3 ++ u "," ++ w4 ++ u "430" ++ w5)
  = ({[424; 425; 426; 430]}%Z, []).
Proof.
  intros H0 H1 H2 H3 H4 H5. unfold parse_id_input.
  rewrite truthy_nonempty by (destruct w0; discriminate). cbn [negb].
  rewrite replace_space, !List.filter_app.
  set (keep := fun c : char => negb (char_eqb 32%N c)).
  change (List.filter keep (u "424")) with (u "424").
  change (List.filter keep (u "426")) with (u "426").
  change (List.filter keep (u "430")) with (u "430").
  change (List.filter keep (u "-")) with (u "-").
  change (List.filter keep (u ",")) with (u ",").
  assert (F0 := filter_spaces keep w0 H0). assert (F1 := filter_spaces keep w1 H1).
  assert (F2 := filter_spaces keep w2 H2). assert (F3 := filter_spaces keep w3 H3).
  assert (F4 := filter_spaces keep w4 H4). assert (F5 := filter_spaces keep w5 H5).
  set (a0 := List.filter keep w0) in *. set (a1 := List.filter keep w1) in *.
  set (a2 := List.filter keep w2) in *. set (a3 := List.filter keep w3) in *.
  set (a4 := List.filter keep w4) in *. set (a5 := List.filter keep w5) in *.
  rewrite comma_literal.
  match goal with
  | |- context [split ?sep ?s] =>
      assert (Hsplit : split sep s
                       = [a0 ++ u "424" ++ a1 ++ u "-" ++ a2 ++ u "426" ++ a3;
                          a4 ++ u "430" ++ a5])
  end.
  - apply split_single_two. split; [| split].
    + rewrite <- !app_assoc. reflexivity.
    + absent.
    + absent.
  - rewrite Hsplit. cbn [parse_parts].
    rewrite parse_range_padded by assumption.
    cbn [parse_parts]. rewrite parse_single_padded by assumption.
    cbn [parse_parts app]. reflexivity.
Qed.

End PaddedInput.

(** C9, as the code has it: the input [424-426,430] parses to the set of
    424, 425, 426 and 430 without a warning, with any whitespace that [int]
    skips before and after its numbers, and with U+0020 spaces anywhere, since
    two inputs that are equal once their spaces are removed parse alike. In
    general an identifier is in the result exactly when one of the
    comma-separated tokens stands for it, as a single integer or inside an
    inclusive range; every malformed token is reported by a warning that
    names it, every warning comes from a malformed token, and the other
    tokens are parsed all the same. *)
Theorem id_input_parses_to_a_set {RT : PyRuntime} :
  (ascii_digits ->
   forall w0 w1 w2 w3 w4 w5 : str,
     spaces w0 -> spaces w1 -> spaces w2 -> spaces w3 -> spaces w4 -> spaces w5 ->
     parse_id_input
       (w0 ++ u "424" ++ w1 ++ u "-" ++ w2 ++ u "426" ++ w3 ++ u "," ++ w4 ++ u "430" ++ w5)
     = ({[424; 425; 426; 430]}%Z, []))
  /\
  (forall s s' : str,
      s <> [] -> s' <> [] ->
      replace (u " ") (u "") s = replace (u " ") (u "") s' ->
      parse_id_input s = parse_id_input s')
  /\
  (forall id_input : str,
      id_input <> [] ->
      (forall x : Z,
          x ∈ fst (parse_id_input id_input)
          <-> exists part, In part (tokens id_input) /\ token_ids part x)
      /\ (forall part,
             In part (tokens id_input) -> malformed part ->
             In (u "Format invalide : " ++ part) (snd (parse_id_input id_input))
             \/ In (u "ID invalide : " ++ part) (snd (parse_id_input id_input)))
      /\ (forall warning,
             In warning (snd (parse_id_input id_input)) ->
             exists part,
               In part (tokens id_input) /\ malformed part
               /\ (warning = u "Format invalide : " ++ part
                   \/ warning = u "ID invalide : " ++ part))).
Proof.
  split; [| split].
  - intros Hdigits w0 w1 w2 w3 w4 w5 H0 H1 H2 H3 H4 H5.
    apply parse_padded_input; assumption.
  - intros s s' Hs Hs' Hsame. unfold parse_id_input.
    rewrite (truthy_nonempty s Hs), (truthy_nonempty s' Hs'), Hsame. reflexivity.
  - intros id_input Hne. unfold parse_id_input, tokens.
    rewrite (truthy_nonempty id_input Hne). cbn [negb].
    pose proof (parse_parts_spec (split (u ",") (replace (u " ") (u "") id_input)) []) as Hspec.
    destruct (parse_parts _ []) as [found warnings].
    destruct Hspec as (Hids & Hreported & Hwarned). cbn [fst snd].
    split; [| split].
    + intros x. rewrite elem_of_list_to_set, list_elem_of_In, Hids. simpl. tauto.
    + exact Hreported.
    + exact Hwarned.
Qed.

Lemma ascii_runtime_digits : @ascii_digits ascii_runtime.
Proof.
  intros c Hc. simpl.
  destruct ((48 <=? c)%N && (c <=? 57)%N) eqn:Hrange; [reflexivity |].
  apply andb_false_iff in Hrange as [H | H]; apply N.leb_gt in H; lia.
Qed.

Lemma id_input_parses_to_a_set_witness :
  parse_id_input (RT := ascii_runtime)
    ([32%N] ++ u "424" ++ [32%N] ++ u "-" ++ [9%N] ++ u "426" ++ [32%N] ++ u "," ++ []
     ++ u "430" ++ [10%N])
  = ({[424; 425; 426; 430]}%Z, [])
  /\ parse_id_input (RT := ascii_runtime) (u "4 24 - 42 6 , 430")
     = parse_id_input (RT := ascii_runtime) (u "424-426,430")
  /\ (425%Z ∈ fst (parse_id_input (RT := ascii_runtime) (u "424-426,430"))
      <-> exists part,
            In part (tokens (u "424-426,430")) /\ token_ids (RT := ascii_runtime) part 425%Z).
Proof.
  destruct (@id_input_parses_to_a_set ascii_runtime) as (Hpadded & Hspaces & Hgeneral).
  split; [| split].
  - apply Hpadded; [exact ascii_runtime_digits | | | | | |]; repeat constructor.
  - apply Hspaces; [vm_compute; discriminate | vm_compute; discriminate | reflexivity].
  - apply Hgeneral. vm_compute. discriminate.
Defined.

(** C9 as stated fails for whitespace other than the space: a tab inside
    a number is not removed, and the separator U+001C, which [str.isspace]
    counts as whitespace, is not skipped by [int] even around a number. In
    both cases the token is reported as invalid and 430 is missing. *)
Lemma some_whitespace_breaks_a_token :
  is_space 9%N = true /\ is_space 28%N = true
  /\ parse_id_input (RT := ascii_runtime) (u "424-426,4" ++ [9%N] ++ u "30")
     = ({[424; 425; 426]}%Z, [u "ID invalide : 4" ++ [9%N] ++ u "30"])
  /\ parse_id_input (RT := ascii_runtime) (u "424-426," ++ [28%N] ++ u "430")
     = ({[424; 425; 426]}%Z, [u "ID invalide : " ++ [28%N] ++ u "430"])
  /\ ({[424; 425; 426]}%Z : gset Z) <> {[424; 425; 426; 430]}%Z.
Proof.
  split; [reflexivity |]. split; [reflexivity |].
  split; [vm_compute; reflexivity |]. split; [vm_compute; reflexivity |].
  intros Heq. assert (Hin : 430%Z ∈ ({[424; 425; 426]}%Z : gset Z)).
  { rewrite Heq. set_solver. }
  set_solver.
Qed.

(** ** The pipeline never fails on text *)

Section Totality.
Context {RT : PyRuntime} {BS : HtmlParser}.

(** The rewrite step returns, whatever the generation call does, and
    leaves the rewriter as it was. *)
Lemma rewrite_never_raises {W} (h : handler W) (w : W) content field_type item_name item_type
    hs self :
  exists r,
    fst (interp h (rewrite_content_with_seo content field_type item_name item_type hs self) w)
    = (inr r, self).
Proof.
  destruct (long_enough_to_rewrite content) eqn:Hg.
  - rewrite rewrite_run by exact Hg.
    destruct (h _ _ w) as [response w1]. unfold outcome_of.
    destruct (split_price field_type content) as [p rest].
    destruct (ebind response py_strip); eauto.
  - rewrite rewrite_skipped by exact Hg. eauto.
Qed.

Lemma rewrite_always_returns content field_type item_name item_type hs self :
  always (rewrite_content_with_seo content field_type item_name item_type hs self)
    (fun rs => exists r, fst rs = inr r).
Proof.
  unfold rewrite_content_with_seo.
  destruct (negb (truthy (VStr content)) || (len (strip content) <? 10)%Z); [simpl; eauto |].
  destruct (split_price field_type content) as [p rest].
  unfold try_except, bind, trigger. simpl.
  intros [e | message]; simpl.
  - intros []. eauto.
  - destruct (py_strip message); simpl; [intros [] |]; eauto.
Qed.

Lemma textual_get (d : dict value) (k : str) (v : value) :
  textual d -> dict_get k d = Some v -> exists s, v = VStr s.
Proof.
  unfold textual. induction 1 as [| [k' v'] d [s Hs] Hd IH]; simpl; [discriminate |].
  destruct (str_eqb k' k); [| exact IH].
  intros [= <-]. simpl in Hs. eauto.
Qed.

Lemma extract_content_of_text (s : str) : exists s', extract_content (VStr s) = inr (VStr s').
Proof. unfold extract_content. destruct (truthy (VStr s)); eauto. Qed.

Lemma for_fold_always_returns {A S} (l : list A) (body : S -> A -> M S) :
  (forall s x self, always (body s x self) (fun rs => exists s', fst rs = inr s')) ->
  forall s self, always (for_fold l s body self) (fun rs => exists s', fst rs = inr s').
Proof.
  intros Hbody. induction l as [| x l IH]; intros s self; simpl.
  - eauto.
  - apply always_mbind. eapply always_mono; [| apply Hbody].
    intros [[e | s'] self'] [s'' Hs'']; simpl in *; [discriminate |]. apply IH.
Qed.

(** On an item whose fields are all plain strings, as the shop's texts
    are, the item processor returns a result: nothing in it raises. *)
Lemma process_item_returns_on_text (d : dict value) item_type fields self :
  textual d ->
  always (process_item (VDict d) item_type fields self) (fun rs => exists r, fst rs = inr r).
Proof.
  intros Htext. unfold process_item, process_item_with.
  assert (Hname : exists item_name, item_name_of d item_type = inr item_name).
  { unfold item_name_of.
    assert (Hv : exists s, match dict_get (u "name") d with Some v => v | None => VStr [] end
                           = VStr s).
    { destruct (dict_get (u "name") d) as [v |] eqn:Hget; [| eauto].
      apply (textual_get d _ v Htext Hget). }
    destruct Hv as [s ->]. destruct (extract_content_of_text s) as [s' ->].
    simpl. eauto. }
  destruct Hname as [item_name ->]. apply always_mbind. simpl.
  apply for_fold_always_returns. intros result [field label] self'.
  unfold process_field.
  destruct (str_in field (fields_to_skip item_type)); [simpl; eauto |].
  destruct (dict_get field d) as [v |] eqn:Hget; [| simpl; eauto].
  destruct (textual_get d field v Htext Hget) as [s ->].
  destruct (extract_content_of_text s) as [s' ->].
  apply always_mbind. simpl. apply always_mbind.
  destruct s' as [| c s']; simpl; [eauto |].
  destruct (5 <? len (strip (c :: s')))%Z; [| simpl; eauto].
  destruct (extract_and_preserve_html (c :: s')) as [hs_text hs].
  apply always_mbind. eapply always_mono; [| apply rewrite_always_returns].
  intros [[e | [rewritten st]] self''] [r Hr]; simpl in *; [discriminate |].
  destruct (negb (str_eqb rewritten (c :: s'))); simpl; eauto.
Qed.

End Totality.

(** ** The pipeline on a product *)

(** The product of the scenario: a promotional short description,
    answered by a factual sentence. The rewrite is recorded with the
    paragraph markup added and the keywords of the new text counted. *)
Example product_424_is_rewritten :
  let item :=
    VDict [(u "id", VInt 424);
           (u "description_short",
              VStr (u "Ce e-liquide délicieux et savoureux offre un plaisir intense."))] in
  let answer := inr (VStr (u "Ce e-liquide contient de la nicotine à 6mg/ml.")) in
  exists r,
    fst (fst (interp (scripted no_shop) (process_item item (u "product") product_fields a_rewriter)
                [answer])) = inr r
    /\ name r = u "product 424"
    /\ has_been_rewritten r = true
    /\ fields_rewritten (seo_stats r) = 1%Z
    /\ total_keywords_added (seo_stats r) = 2%Z
    /\ List.map (fun data => (field data, rewritten_content data, rewritten_text_only data,
                              keywords data)) (rewrites r)
       = [(u "description_short",
           u "<p>Ce e-liquide contient de la nicotine à 6mg/ml.</p>",
           u "Ce e-liquide contient de la nicotine à 6mg/ml.",
           [(u "e-liquide", 1%Z); (u "vapotage", 0%Z); (u "cigarette électronique", 0%Z);
            (u "vape", 0%Z); (u "nicotine", 1%Z)])].
Proof.
  intros item answer. eexists. split; [vm_compute; reflexivity |].
  repeat split; vm_compute; reflexivity.
Qed.

(** A run by count over the shop with one product, the count 0 standing
    for no limit: the product is fetched, rewritten and counted. *)
Example run_over_one_product :
  let answer := inr (VStr (u "Ce e-liquide contient de la nicotine à 6mg/ml.")) in
  let run :=
    fst (interp (scripted one_product_shop)
           (run_with_params (u "Produits") 0 true a_rewriter) [answer]) in
  exists r,
    fst run = inr r
    /\ total_products_analyzed (metadata r) = 1%Z
    /\ items_rewritten (metadata r) = 1%Z
    /\ List.map (fun item => (id item, name item, has_been_rewritten item)) (products r)
       = [(VInt 424, u "Fruits rouges 10 ml", true)]
    /\ categories r = [] /\ manufacturers r = [].
Proof.
  intros answer run. eexists. split; [vm_compute; reflexivity |].
  repeat split; vm_compute; reflexivity.
Qed.
